(** * BHAP tracker: the proposal store queries and the proposal page

    A shallow embedding of [bhap.go] and [bhap_page.go].  Go's [int] is
    the 64-bit two's complement integer of the App Engine runtime, held
    as a [Z] with its wrap-around written out; Go strings are [string];
    a nil-able [*datastore.Key] is an [option Key]; a Go result pair
    [(v, err)] is a Rocq pair whose second component is [option error]. *)

From Stdlib Require Import ZArith List String Ascii Bool Lia.
From Stdlib Require Import Sorted Permutation DecimalString.
Import ListNotations.

#[local] Set Warnings "-register-all".
Local Open Scope string_scope.
Local Open Scope Z_scope.
Local Open Scope list_scope.

(** ** Go's [int] *)

Module GoInt.

Definition min_int : Z := - 2 ^ 63.
Definition max_int : Z := 2 ^ 63 - 1.

(** The values an [int] can hold. *)
Definition in_int (z : Z) : Prop := min_int <= z <= max_int.

(** Two's complement wrap-around of an exact result. *)
Definition wrap (z : Z) : Z := (z + 2 ^ 63) mod 2 ^ 64 - 2 ^ 63.

Definition add (a b : Z) : Z := wrap (a + b).
Definition sub (a b : Z) : Z := wrap (a - b).
Definition mul (a b : Z) : Z := wrap (a * b).

(** Integer division truncates toward zero and panics on a zero
    divisor ([None]). *)
Definition quo (a b : Z) : option Z :=
  if b =? 0 then None else Some (wrap (Z.quot a b)).

End GoInt.

(** ** The App Engine datastore, as far as the program uses it *)

Definition error := string.

(** [datastore.Key]: the fields the library compares in [Key.Equal]. *)
Inductive Key : Type :=
  mkKey (kind stringID : string) (intID : Z) (parent : option Key)
        (appID namespace : string).

(** [k.Equal(o)] of the datastore package, for a receiver that is not
    nil: walks both parent chains, comparing every field, and requires
    both chains to end together. *)
Fixpoint keyEqual (k : Key) (o : option Key) {struct k} : bool :=
  match k, o with
  | mkKey kd sid iid kp app ns, Some (mkKey kd' sid' iid' op app' ns') =>
      if negb (kd =? kd')%string || negb (sid =? sid')%string
         || negb (iid =? iid') || negb (app =? app')%string
         || negb (ns =? ns')%string
      then false
      else match kp with
           | Some p => keyEqual p op
           | None => match op with None => true | Some _ => false end
           end
  | _, None => false
  end.

(** [k.Equal(o)] for any receiver: two nil keys are equal. *)
Definition Equal (k o : option Key) : bool :=
  match k with
  | Some k' => keyEqual k' o
  | None => match o with None => true | Some _ => false end
  end.

(** ** bhap.go *)

(** [type status string] and its eight constants. *)
Definition status := string.

Definition draftStatus : status := "Draft".
Definition deferredStatus : status := "Deferred".
Definition rejectedStatus : status := "Rejected".
Definition discussionStatus : status := "Discussion".
Definition withdrawnStatus : status := "Withdrawn".
Definition acceptedStatus : status := "Accepted".
Definition replacedStatus : status := "Replaced".
Definition aprilFoolsStatus : status := "April Fools".

Definition bhapEntityName : string := "BHAP".

(** [type bhap struct]; the two [time.Time] fields are held as instants
    on an integer clock. *)
Record bhap : Type := mkBhap {
  ID : Z;
  Title : string;
  LastModified : Z;
  Author : option Key;
  Status : status;
  CreatedDate : Z;
  Content : string
}.

(** The datastore as the queries of [bhap.go] see it: the stored entities
    of kind [BHAP], and whether the service call fails. *)
Record Datastore : Type := mkDatastore {
  stored : list bhap;
  failure : option error
}.

Inductive direction : Type := ascending | descending.

(** A [datastore.Query] under construction. *)
Record Query : Type := mkQuery {
  q_kind : string;
  q_order : option (direction * string);
  q_limit : option nat
}.

Definition NewQuery (kind : string) : Query := mkQuery kind None None.

(** [q.Order(fieldName)]: a leading minus sign asks for descending order. *)
Definition Order (fieldName : string) (q : Query) : Query :=
  match fieldName with
  | String "-" rest => mkQuery (q_kind q) (Some (descending, rest)) (q_limit q)
  | _ => mkQuery (q_kind q) (Some (ascending, fieldName)) (q_limit q)
  end.

Definition Limit (n : nat) (q : Query) : Query :=
  mkQuery (q_kind q) (q_order q) (Some n).

(** The integer properties of a stored [bhap] a query can sort on. *)
Definition intProperty (name : string) (b : bhap) : option Z :=
  if (name =? "ID")%string then Some (ID b) else None.

(** [before d x y]: [x] may precede [y] in a result sorted in direction [d]. *)
Definition before (d : direction) (x y : Z) : bool :=
  match d with
  | ascending => x <=? y
  | descending => y <=? x
  end.

Fixpoint insertBy (d : direction) (key : bhap -> Z) (b : bhap) (l : list bhap)
  : list bhap :=
  match l with
  | [] => [b]
  | c :: l' =>
      if before d (key b) (key c) then b :: l else c :: insertBy d key b l'
  end.

Fixpoint sortBy (d : direction) (key : bhap -> Z) (l : list bhap) : list bhap :=
  match l with
  | [] => []
  | b :: l' => insertBy d key b (sortBy d key l')
  end.

(** Entities without the sort property are not returned by a sorted
    query. *)
Definition hasProperty (name : string) (b : bhap) : bool :=
  match intProperty name b with Some _ => true | None => false end.

Definition propertyOr0 (name : string) (b : bhap) : Z :=
  match intProperty name b with Some z => z | None => 0 end.

Definition ordered (o : option (direction * string)) (l : list bhap)
  : list bhap :=
  match o with
  | None => l
  | Some (d, name) => sortBy d (propertyOr0 name) (filter (hasProperty name) l)
  end.

Definition limited (n : option nat) (l : list bhap) : list bhap :=
  match n with
  | None => l
  | Some k => firstn k l
  end.

(** [q.GetAll(ctx, &results)]: appends the matching entities to [results],
    or reports the failure of the call and leaves [results] alone. *)
Definition GetAll (ctx : Datastore) (q : Query) (results : list bhap)
  : list bhap * option error :=
  match failure ctx with
  | Some e => (results, Some e)
  | None =>
      if (q_kind q =? bhapEntityName)%string
      then (results ++ limited (q_limit q) (ordered (q_order q) (stored ctx)), None)
      else (results, None)
  end.

(** [nextID]: the next unused ID for a new BHAP. *)
Definition nextID (ctx : Datastore) : Z * option error :=
  let query := Limit 1 (Order "-ID" (NewQuery bhapEntityName)) in
  match GetAll ctx query [] with
  | (_, Some err) => (0, Some err)
  | (results, None) =>
      match results with
      | [] => (0, None)
      | first :: _ => (GoInt.add (ID first) 1, None)
      end
  end.

(** [allBHAPs]: all recorded BHAPs. *)
Definition allBHAPs (ctx : Datastore) : list bhap * option error :=
  match GetAll ctx (Order "ID" (NewQuery bhapEntityName)) [] with
  | (_, Some err) => ([], Some err)
  | (results, None) => (results, None)
  end.

(** ** bhap_page.go *)

(** [type optionsMode string] and its seven constants. *)
Definition optionsMode := string.

Definition notLoggedIn : optionsMode := "notLoggedIn".
Definition draftNotAuthor : optionsMode := "draftNotAuthor".
Definition draftAuthor : optionsMode := "draftAuthor".
Definition discussionAuthor : optionsMode := "discussionAuthor".
Definition discussionNoVote : optionsMode := "discussionNoVote".
Definition discussionVoted : optionsMode := "discussionVoted".
Definition finalized : optionsMode := "finalized".

(** Modelled from the spec: the [user] type is declared outside the two
    source files; the page reads its [FirstName] and [LastName]. *)
Record user : Type := mkUser {
  FirstName : string;
  LastName : string
}.

(** Modelled from the spec: the [vote] type is declared outside the two
    source files.  A vote refers to its proposal and its voter and holds a
    [Value], which the page compares with [acceptedStatus] and
    [rejectedStatus], so that it is a [status], that is, any string. *)
Record vote : Type := mkVote {
  Proposal : option Key;
  Voter : option Key;
  Value : status
}.

(** Modelled from the spec: [isEditable] is called by the page and defined
    outside the two source files; the spec makes it true exactly for the
    [Draft] status. *)
Definition isEditable (s : status) : bool := (s =? draftStatus)%string.

(** [bhapPageFiller]: what the page template is filled with. *)
Record bhapPageFiller : Type := mkFiller {
  LoggedIn : bool;
  FullName : string;
  FillerID : Z;
  BHAP : bhap;
  SelectedVote : string;
  OptionsMode : optionsMode;
  Editable : bool;
  HTMLContent : string;
  VoteCount : Z;
  UserCount : Z;
  PercentAccepted : Z;
  PercentRejected : Z;
  PercentUndecided : Z
}.

(** What the handler calls outside the two source files, each with the
    results it hands back: the request's [id] variable is parsed by
    [strconv.Atoi], the markdown is rendered by [blackfriday.Run], and
    the rest are datastore and session lookups.  [bhapByID] is used by
    the page with a key as its second result, nil when no such BHAP
    exists. *)
Record Services : Type := mkServices {
  Atoi : string -> Z * option error;
  bhapByID : Z -> bhap * option Key * option error;
  Run : string -> string;
  Get : option Key -> user * option error;
  userFromSession : user * option Key * option error;
  allVotesForBHAP : option Key -> list vote * option error;
  Count : Z * option error;
  voteForBHAP : option Key -> option Key -> vote * option Key * option error
}.

(** How a run of the handler ends: [http.Error] with a body and a status
    code, the template shown with its filler, or a run-time panic. *)
Inductive Response : Type :=
| HttpError (body : string) (code : Z)
| Rendered (filler : bhapPageFiller)
| Panic (message : string).

Definition StatusInternalServerError : Z := 500.

Definition divideByZero : string := "runtime error: integer divide by zero".

(** [fmt.Sprintf("%v", id)] for an [int]. *)
Definition formatInt (id : Z) : string := NilZero.string_of_int (Z.to_int id).

(** "Decide what options the user should have": the cascade on the
    viewer's key, the BHAP's status, its author and the viewer's vote key. *)
Definition decideOptions (userKey : option Key) (loadedBHAP : bhap)
    (usersVoteKey : option Key) : optionsMode :=
  match userKey with
  | None => notLoggedIn
  | Some uk =>
      if (Status loadedBHAP =? draftStatus)%string then
        if keyEqual uk (Author loadedBHAP) then draftAuthor else draftNotAuthor
      else if (Status loadedBHAP =? discussionStatus)%string then
        if keyEqual uk (Author loadedBHAP) then discussionAuthor
        else match usersVoteKey with
             | None => discussionNoVote
             | Some _ => discussionVoted
             end
      else finalized
  end.

(** One turn of the loop over [allVotes], on the pair
    [(acceptedCount, rejectedCount)]. *)
Definition countVote (counts : Z * Z) (v : vote) : Z * Z :=
  let '(acceptedCount, rejectedCount) := counts in
  if (Value v =? acceptedStatus)%string then
    (GoInt.add acceptedCount 1, rejectedCount)
  else if (Value v =? rejectedStatus)%string then
    (acceptedCount, GoInt.add rejectedCount 1)
  else (acceptedCount, rejectedCount).

(** The three counts of the vote breakdown. *)
Record breakdown : Type := mkBreakdown {
  acceptedCount : Z;
  rejectedCount : Z;
  undecidedCount : Z
}.

(** "Figure out the vote breakdown": the loop and the undecided count. *)
Definition voteBreakdown (allVotes : list vote) (userCount : Z) : breakdown :=
  let '(accepted, rejected) := fold_left countVote allVotes (0, 0) in
  mkBreakdown accepted rejected
    (GoInt.sub (GoInt.sub userCount (GoInt.add accepted rejected)) 1).

(** [int((count / (userCount - 1)) * 100)]; [None] is the division's
    panic. *)
Definition percent (count userCount : Z) : option Z :=
  match GoInt.quo count (GoInt.sub userCount 1) with
  | None => None
  | Some q => Some (GoInt.mul q 100)
  end.

(** The viewer's own vote as the page shows it; [None] is the
    "Unknown vote type" exit. *)
Definition selectVote (usersVote : vote) (usersVoteKey : option Key)
  : option string :=
  match usersVoteKey with
  | None => Some ""
  | Some _ =>
      if (Value usersVote =? acceptedStatus)%string then Some "ACCEPT"
      else if (Value usersVote =? rejectedStatus)%string then Some "REJECTED"
      else None
  end.

(** The handler from "Decide what options the user should have" to its
    end, on what the lookups returned. *)
Definition fillPage (loadedBHAP : bhap) (html : string) (u : user)
    (userKey : option Key) (allVotes : list vote) (userCount : Z)
    (usersVote : vote) (usersVoteKey : option Key) : Response :=
  let mode := decideOptions userKey loadedBHAP usersVoteKey in
  let counts := voteBreakdown allVotes userCount in
  let fullName :=
    match userKey with
    | Some _ => (FirstName u ++ " " ++ LastName u)%string
    | None => ""
    end in
  match selectVote usersVote usersVoteKey with
  | None => HttpError "Unknown vote type" StatusInternalServerError
  | Some selectedVote =>
      match percent (acceptedCount counts) userCount,
            percent (rejectedCount counts) userCount,
            percent (undecidedCount counts) userCount with
      | Some pa, Some pr, Some pu =>
          Rendered
            (mkFiller
               (match userKey with Some _ => true | None => false end)
               fullName (ID loadedBHAP) loadedBHAP selectedVote mode
               (isEditable (Status loadedBHAP)) html
               (Z.of_nat (List.length allVotes)) (GoInt.sub userCount 1)
               pa pr pu)
      | _, _, _ => Panic divideByZero
      end
  end.

(** [serveBHAPPage]: a page that displays info on a single BHAP. *)
Definition serveBHAPPage (s : Services) (idStr : string) : Response :=
  match Atoi s idStr with
  | (_, Some _) => HttpError "ID must be an integer" 400
  | (id, None) =>
  match bhapByID s id with
  | (_, _, Some _) => HttpError "Failed to load BHAP" StatusInternalServerError
  | (_, None, None) => HttpError ("No BHAP with ID " ++ formatInt id)%string 404
  | (loadedBHAP, Some bhapKey, None) =>
  let html := Run s (Content loadedBHAP) in
  match Get s (Author loadedBHAP) with
  | (_, Some _) => HttpError "Failed to load user" StatusInternalServerError
  | (_, None) =>
  match userFromSession s with
  | (_, _, Some _) =>
      HttpError "Could not read session" StatusInternalServerError
  | (u, userKey, None) =>
  match allVotesForBHAP s (Some bhapKey) with
  | (_, Some _) => HttpError "Could not get votes" StatusInternalServerError
  | (allVotes, None) =>
  match Count s with
  | (_, Some _) =>
      HttpError "Could not get user count" StatusInternalServerError
  | (userCount, None) =>
  match voteForBHAP s (Some bhapKey) userKey with
  | (_, _, Some _) =>
      HttpError "Could not read user's vote" StatusInternalServerError
  | (usersVote, usersVoteKey, None) =>
      fillPage loadedBHAP html u userKey allVotes userCount
               usersVote usersVoteKey
  end end end end end end end.

(** ** Specification-side notions *)

(** The spec's table for [determineViewMode], on the status and the three
    facts about the viewer: authenticated, author, has voted. *)
Inductive determineViewMode_spec
  : status -> bool -> bool -> bool -> optionsMode -> Prop :=
| mode_notLoggedIn st author voted :
    determineViewMode_spec st false author voted notLoggedIn
| mode_draftAuthor voted :
    determineViewMode_spec draftStatus true true voted draftAuthor
| mode_draftNotAuthor voted :
    determineViewMode_spec draftStatus true false voted draftNotAuthor
| mode_discussionAuthor voted :
    determineViewMode_spec discussionStatus true true voted discussionAuthor
| mode_discussionNoVote :
    determineViewMode_spec discussionStatus true false false discussionNoVote
| mode_discussionVoted :
    determineViewMode_spec discussionStatus true false true discussionVoted
| mode_finalized st author voted :
    st <> draftStatus -> st <> discussionStatus ->
    determineViewMode_spec st true author voted finalized.

(** The spec's decision order for [determineViewMode]: the authentication
    check first, then the status, then authorship, then the existence of
    a vote. *)
Definition determineViewMode (st : status)
    (authenticated author voted : bool) : optionsMode :=
  if negb authenticated then notLoggedIn
  else if (st =? draftStatus)%string then
    if author then draftAuthor else draftNotAuthor
  else if (st =? discussionStatus)%string then
    if author then discussionAuthor
    else if voted then discussionVoted else discussionNoVote
  else finalized.

Definition sevenModes : list optionsMode :=
  [notLoggedIn; draftAuthor; draftNotAuthor; discussionAuthor;
   discussionNoVote; discussionVoted; finalized].

Definition isSome {A : Type} (o : option A) : bool :=
  match o with Some _ => true | None => false end.

(** The viewer is the author of the BHAP. *)
Definition isAuthor (userKey : option Key) (loadedBHAP : bhap) : bool :=
  match userKey with
  | Some uk => keyEqual uk (Author loadedBHAP)
  | None => false
  end.

(** The number of votes of a list that hold a given value. *)
Definition votesWith (s : status) (l : list vote) : Z :=
  Z.of_nat (List.length (filter (fun v => (Value v =? s)%string) l)).

(** A vote value outside the two-element enum. *)
Definition invalidValue (s : status) : Prop :=
  s <> acceptedStatus /\ s <> rejectedStatus.

(** [x] may come before [y] in a result sorted on [key] in direction [d]. *)
Definition precedes (d : direction) (key : bhap -> Z) (x y : bhap) : Prop :=
  before d (key x) (key y) = true.

(** [m] is the largest ID among the BHAPs of [l]. *)
Definition maxID (m : Z) (l : list bhap) : Prop :=
  In m (map ID l) /\ Forall (fun b => ID b <= m) l.

(** Every lookup of the handler succeeds and hands back the given data. *)
Definition lookups (s : Services) (idStr : string) (loadedBHAP : bhap)
    (u : user) (userKey : option Key) (allVotes : list vote) (userCount : Z)
    (usersVote : vote) (usersVoteKey : option Key) : Prop :=
  exists (id : Z) (bhapKey : Key) (author : user),
    Atoi s idStr = (id, None) /\
    bhapByID s id = (loadedBHAP, Some bhapKey, None) /\
    Get s (Author loadedBHAP) = (author, None) /\
    userFromSession s = (u, userKey, None) /\
    allVotesForBHAP s (Some bhapKey) = (allVotes, None) /\
    Count s = (userCount, None) /\
    voteForBHAP s (Some bhapKey) userKey = (usersVote, usersVoteKey, None).

(** The handler answered with [http.Error]. *)
Definition reportsError (r : Response) : Prop :=
  exists body code, r = HttpError body code.

(** *** Concrete data for the scenarios *)

Definition userKeyOf (n : Z) : Key := mkKey "User" "" n None "bhap" "".
Definition bhapKeyOf (n : Z) : Key := mkKey "BHAP" "" n None "bhap" "".

Definition ballot (voter : Z) (value : status) : vote :=
  mkVote (Some (bhapKeyOf 1)) (Some (userKeyOf voter)) value.

Definition proposal (id : Z) (st : status) : bhap :=
  mkBhap id "A proposal" 0 (Some (userKeyOf 1)) st 0 "Some *markdown*".

Definition viewer : user := mkUser "Ada" "Lovelace".

(** Services whose lookups all succeed with the given data. *)
Definition servicesWith (loadedBHAP : bhap) (userKey : option Key)
    (allVotes : list vote) (userCount : Z) (usersVote : vote)
    (usersVoteKey : option Key) : Services :=
  mkServices
    (fun _ => (ID loadedBHAP, None))
    (fun _ => (loadedBHAP, Some (bhapKeyOf 1), None))
    (fun md => md)
    (fun _ => (mkUser "Grace" "Hopper", None))
    (viewer, userKey, None)
    (fun _ => (allVotes, None))
    (userCount, None)
    (fun _ _ => (usersVote, usersVoteKey, None)).

(** ** bhap.go: [bhapByID] and the filtered query it builds *)

Inductive operator : Type :=
  lessThan | lessEq | equal | greaterEq | greaterThan.

(** One filter of a query: a property name, an operator and an integer
    to compare with. *)
Record queryFilter : Type := mkQueryFilter {
  FieldName : string;
  Op : operator;
  FilterValue : Z
}.

(** A query together with its filters and the error a malformed filter
    leaves in it, which [GetAll] reports. *)
Record FilteredQuery : Type := mkFilteredQuery {
  fq_filter : list queryFilter;
  fq_err : option error;
  fq_rest : Query
}.

Definition unfiltered (q : Query) : FilteredQuery := mkFilteredQuery [] None q.

Definition isSpace (c : ascii) : bool :=
  (c =? " ")%char || (c =? "009")%char || (c =? "010")%char
  || (c =? "011")%char || (c =? "012")%char || (c =? "013")%char.

(** The cut set [" ><=!"] that ends a filter's property name. *)
Definition isOperatorChar (c : ascii) : bool :=
  (c =? " ")%char || (c =? ">")%char || (c =? "<")%char
  || (c =? "=")%char || (c =? "!")%char.

Fixpoint trimLeft (cut : ascii -> bool) (s : string) : string :=
  match s with
  | EmptyString => EmptyString
  | String c rest => if cut c then trimLeft cut rest else s
  end.

Fixpoint trimRight (cut : ascii -> bool) (s : string) : string :=
  match s with
  | EmptyString => EmptyString
  | String c rest =>
      match trimRight cut rest with
      | EmptyString => if cut c then EmptyString else String c EmptyString
      | kept => String c kept
      end
  end.

Definition TrimSpace (s : string) : string :=
  trimLeft isSpace (trimRight isSpace s).

(** [s[n:]]. *)
Fixpoint sliceFrom (n : nat) (s : string) : string :=
  match n, s with
  | O, _ => s
  | S n', String _ rest => sliceFrom n' rest
  | S _, EmptyString => EmptyString
  end.

Definition parseOperator (op : string) : option operator :=
  if (op =? "<=")%string then Some lessEq
  else if (op =? ">=")%string then Some greaterEq
  else if (op =? "<")%string then Some lessThan
  else if (op =? ">")%string then Some greaterThan
  else if (op =? "=")%string then Some equal
  else None.

(** [q.Filter(filterStr, value)]: the property name is the filter string
    without its trailing operator characters, the operator is what
    follows it; an empty filter string or an unknown operator leaves an
    error in the query. *)
Definition Filter (filterStr : string) (value : Z) (q : FilteredQuery)
  : FilteredQuery :=
  let filterStr := TrimSpace filterStr in
  if (String.length filterStr <? 1)%nat then
    mkFilteredQuery (fq_filter q) (Some "datastore: invalid filter") (fq_rest q)
  else
    let name := trimRight isOperatorChar filterStr in
    match parseOperator (TrimSpace (sliceFrom (String.length name) filterStr)) with
    | Some op =>
        mkFilteredQuery (fq_filter q ++ [mkQueryFilter name op value])
                        (fq_err q) (fq_rest q)
    | None =>
        mkFilteredQuery (fq_filter q) (Some "datastore: invalid operator")
                        (fq_rest q)
    end.

Definition LimitFiltered (n : nat) (q : FilteredQuery) : FilteredQuery :=
  mkFilteredQuery (fq_filter q) (fq_err q) (Limit n (fq_rest q)).

Definition compares (op : operator) (x y : Z) : bool :=
  match op with
  | lessThan => x <? y
  | lessEq => x <=? y
  | equal => x =? y
  | greaterEq => y <=? x
  | greaterThan => y <? x
  end.

(** An entity passes a filter when it has the property and the property
    compares as asked. *)
Definition passes (f : queryFilter) (b : bhap) : bool :=
  match intProperty (FieldName f) b with
  | Some z => compares (Op f) z (FilterValue f)
  | None => false
  end.

Definition passesAll (fs : list queryFilter) (b : bhap) : bool :=
  forallb (fun f => passes f b) fs.

(** [q.GetAll(ctx, &results)] for a query with filters. *)
Definition GetAllFiltered (ctx : Datastore) (q : FilteredQuery)
    (results : list bhap) : list bhap * option error :=
  match fq_err q with
  | Some e => (results, Some e)
  | None =>
      match failure ctx with
      | Some e => (results, Some e)
      | None =>
          if (q_kind (fq_rest q) =? bhapEntityName)%string
          then (results
                ++ limited (q_limit (fq_rest q))
                     (ordered (q_order (fq_rest q))
                        (filter (passesAll (fq_filter q)) (stored ctx))),
                None)
          else (results, None)
      end
  end.

(** [bhap{}], the zero value. *)
Definition zeroBhap : bhap := mkBhap 0 "" 0 None "" 0 "".

Module BhapStore.

(** [bhapByID] of bhap.go: the BHAP with the given ID, unless none
    exists, in which case "exists" is false. *)
Definition bhapByID (ctx : Datastore) (id : Z) : bhap * bool * option error :=
  let query :=
    LimitFiltered 1 (Filter "ID =" id (unfiltered (NewQuery bhapEntityName))) in
  match GetAllFiltered ctx query [] with
  | (_, Some err) => (zeroBhap, false, Some err)
  | (results, None) =>
      match results with
      | [] => (zeroBhap, false, None)
      | first :: _ => (first, true, None)
      end
  end.

End BhapStore.

(** The seven bodies the handler sends with status 500. *)
Definition internalErrors : list string :=
  ["Failed to load BHAP"; "Failed to load user"; "Could not read session";
   "Could not get votes"; "Could not get user count";
   "Could not read user's vote"; "Unknown vote type"].

(** The ways through the handler: the four kinds of early exit, and the
    run that reaches the filling of the page with every lookup done. *)
Inductive exit (s : Services) (idStr : string) : Response -> Prop :=
| exit_bad_id :
    snd (Atoi s idStr) <> None ->
    exit s idStr (HttpError "ID must be an integer" 400)
| exit_load_failed id :
    Atoi s idStr = (id, None) ->
    snd (bhapByID s id) <> None ->
    exit s idStr (HttpError "Failed to load BHAP" StatusInternalServerError)
| exit_no_bhap id b :
    Atoi s idStr = (id, None) ->
    bhapByID s id = (b, None, None) ->
    exit s idStr (HttpError ("No BHAP with ID " ++ formatInt id)%string 404)
| exit_lookup_failed body :
    In body ["Failed to load user"; "Could not read session";
             "Could not get votes"; "Could not get user count";
             "Could not read user's vote"] ->
    exit s idStr (HttpError body StatusInternalServerError)
| exit_filled loadedBHAP u userKey allVotes userCount usersVote usersVoteKey :
    lookups s idStr loadedBHAP u userKey allVotes userCount usersVote
            usersVoteKey ->
    exit s idStr
      (fillPage loadedBHAP (Run s (Content loadedBHAP)) u userKey allVotes
                userCount usersVote usersVoteKey).

(** * Properties *)

(** ** Go's [int] *)

Lemma wrap_in_int z : GoInt.in_int z -> GoInt.wrap z = z.
Proof.
  unfold GoInt.in_int, GoInt.wrap, GoInt.min_int, GoInt.max_int.
  intros H. rewrite Z.mod_small; lia.
Qed.

Lemma max_int_value : GoInt.max_int = 9223372036854775807.
Proof. reflexivity. Qed.

Lemma min_int_value : GoInt.min_int = -9223372036854775808.
Proof. reflexivity. Qed.

(** ** Sorted queries *)

Section SortBy.

Variable d : direction.
Variable key : bhap -> Z.

Lemma precedes_total x y : precedes d key x y \/ precedes d key y x.
Proof. unfold precedes, before. destruct d; lia. Qed.

Lemma precedes_trans x y z : precedes d key x y -> precedes d key y z -> precedes d key x z.
Proof. unfold precedes, before. destruct d; lia. Qed.

Lemma insertBy_perm b l : Permutation (b :: l) (insertBy d key b l).
Proof.
  induction l as [|c l IH]; simpl.
  - apply Permutation_refl.
  - destruct (before d (key b) (key c)).
    + apply Permutation_refl.
    + eapply perm_trans; [apply perm_swap|]. apply perm_skip, IH.
Qed.

Lemma sortBy_perm l : Permutation l (sortBy d key l).
Proof.
  induction l as [|b l IH]; simpl.
  - constructor.
  - eapply perm_trans; [apply perm_skip, IH | apply insertBy_perm].
Qed.

Lemma insertBy_sorted b l :
  StronglySorted (precedes d key) l -> StronglySorted (precedes d key) (insertBy d key b l).
Proof.
  induction 1 as [|c l Hs IH Hc]; simpl.
  - repeat constructor.
  - destruct (before d (key b) (key c)) eqn:E.
    + constructor; [constructor; assumption|].
      constructor; [exact E|].
      eapply Forall_impl; [|exact Hc].
      intros z Hz. eapply precedes_trans; [exact E | exact Hz].
    + constructor; [exact IH|].
      assert (Hcb : precedes d key c b).
      { destruct (precedes_total b c) as [H|H]; [|exact H].
        unfold precedes in H. congruence. }
      eapply Permutation_Forall; [apply insertBy_perm|].
      constructor; assumption.
Qed.

Lemma sortBy_sorted l : StronglySorted (precedes d key) (sortBy d key l).
Proof.
  induction l as [|b l IH]; simpl.
  - constructor.
  - apply insertBy_sorted, IH.
Qed.

End SortBy.

Lemma filter_hasProperty_ID l : filter (hasProperty "ID") l = l.
Proof.
  induction l as [|b l IH]; simpl; [reflexivity|]. now rewrite IH.
Qed.

Lemma ordered_ID d l : ordered (Some (d, "ID")) l = sortBy d ID l.
Proof.
  unfold ordered. rewrite filter_hasProperty_ID. reflexivity.
Qed.

(** ** bhap.go: [nextID] and [allBHAPs] *)

Lemma GetAll_ok ctx q :
  failure ctx = None -> q_kind q = bhapEntityName ->
  GetAll ctx q [] = (limited (q_limit q) (ordered (q_order q) (stored ctx)), None).
Proof.
  intros Hf Hk. unfold GetAll. rewrite Hf, Hk. reflexivity.
Qed.

Lemma sorted_descending_head b l :
  StronglySorted (precedes descending ID) (b :: l) ->
  Forall (fun c => ID c <= ID b) (b :: l).
Proof.
  intros H. inversion H as [|? ? _ Hall]; subst.
  constructor; [lia|].
  eapply Forall_impl; [|exact Hall].
  unfold precedes, before. intros c Hc. lia.
Qed.

Lemma sorted_ascending_le l :
  StronglySorted (precedes ascending ID) l ->
  StronglySorted (fun a b => ID a <= ID b) l.
Proof.
  induction 1 as [|b l Hs IH Hall]; constructor; [exact IH|].
  eapply Forall_impl; [|exact Hall].
  unfold precedes, before. intros c Hc. lia.
Qed.

(** A failed query is handed on with the zero result. *)
Lemma queries_hand_on_failure ctx e :
  failure ctx = Some e ->
  nextID ctx = (0, Some e) /\ allBHAPs ctx = ([], Some e).
Proof.
  intros Hf. unfold nextID, allBHAPs, GetAll. rewrite Hf. split; reflexivity.
Qed.

(** C8.  When the query succeeds, [nextID] is 0 on a store without
    BHAPs, and otherwise the largest stored ID plus one in Go's [int]
    arithmetic, which is the exact sum whenever that largest ID is an
    [int] below the largest one. *)
Theorem nextID_max_plus_one (ctx : Datastore) :
  failure ctx = None ->
  (stored ctx = [] -> nextID ctx = (0, None)) /\
  (forall m, maxID m (stored ctx) ->
     nextID ctx = (GoInt.add m 1, None) /\
     (GoInt.min_int <= m < GoInt.max_int -> nextID ctx = (m + 1, None))).
Proof.
  intros Hf. unfold nextID.
  rewrite GetAll_ok; [|exact Hf|reflexivity].
  cbn [q_limit q_order Limit Order NewQuery limited].
  rewrite ordered_ID.
  pose proof (sortBy_perm descending ID (stored ctx)) as Hperm.
  pose proof (sortBy_sorted descending ID (stored ctx)) as Hsort.
  split.
  - intros He. rewrite He. reflexivity.
  - intros m [Hin Hmax].
    destruct (sortBy descending ID (stored ctx)) as [|first rest] eqn:E.
    + apply Permutation_sym, Permutation_nil in Hperm.
      rewrite Hperm in Hin. destruct Hin.
    + cbn [firstn].
      assert (Hm : ID first = m).
      { apply sorted_descending_head in Hsort.
        assert (Hfirst : In first (stored ctx)).
        { eapply Permutation_in; [apply Permutation_sym, Hperm | now left]. }
        rewrite Forall_forall in Hmax. specialize (Hmax _ Hfirst).
        apply in_map_iff in Hin. destruct Hin as (b & Hb & Hbin).
        assert (Hb' : In b (first :: rest)).
        { eapply Permutation_in; [exact Hperm | exact Hbin]. }
        rewrite Forall_forall in Hsort. specialize (Hsort _ Hb'). lia. }
      rewrite Hm. split; [reflexivity|].
      intros Hr. unfold GoInt.add. rewrite wrap_in_int; [reflexivity|].
      unfold GoInt.in_int. lia.
Qed.

Lemma nextID_max_plus_one_witness :
  nextID (mkDatastore [proposal 3 draftStatus; proposal 7 discussionStatus;
                       proposal 5 acceptedStatus] None) = (8, None).
Proof.
  refine (proj2 (proj2 (nextID_max_plus_one
            (mkDatastore [proposal 3 draftStatus; proposal 7 discussionStatus;
                          proposal 5 acceptedStatus] None) eq_refl) 7 _) _).
  - split; [simpl; auto | repeat constructor; simpl; lia].
  - rewrite min_int_value, max_int_value. lia.
Defined.

(** C10.  When the query succeeds, [allBHAPs] returns exactly the stored
    BHAPs, in ascending order of ID, with no error; on a store without
    BHAPs it returns the empty list with no error. *)
Theorem allBHAPs_all_sorted (ctx : Datastore) :
  failure ctx = None ->
  exists results,
    allBHAPs ctx = (results, None) /\
    Permutation (stored ctx) results /\
    StronglySorted (fun a b => ID a <= ID b) results /\
    (stored ctx = [] -> results = []).
Proof.
  intros Hf. exists (sortBy ascending ID (stored ctx)).
  unfold allBHAPs. rewrite GetAll_ok; [|exact Hf|reflexivity].
  cbn [q_limit q_order Order NewQuery limited]. rewrite ordered_ID.
  repeat split.
  - apply sortBy_perm.
  - apply sorted_ascending_le, sortBy_sorted.
  - intros He. rewrite He. reflexivity.
Qed.

Lemma allBHAPs_all_sorted_witness :
  exists results,
    allBHAPs (mkDatastore [proposal 3 draftStatus; proposal 7 discussionStatus;
                           proposal 5 acceptedStatus] None) = (results, None) /\
    map ID results = [3; 5; 7].
Proof.
  destruct (allBHAPs_all_sorted
              (mkDatastore [proposal 3 draftStatus; proposal 7 discussionStatus;
                            proposal 5 acceptedStatus] None) eq_refl)
    as (results & Heq & _).
  exists results. split; [exact Heq|].
  vm_compute in Heq. injection Heq as <-. reflexivity.
Defined.

(** ** bhap_page.go: the options mode *)

Lemma sevenModes_NoDup : NoDup sevenModes.
Proof.
  unfold sevenModes.
  repeat (constructor; [simpl; intros H; repeat (destruct H as [H|H]; [discriminate H|]); exact H|]).
  constructor.
Qed.

Lemma decideOptions_meets_spec userKey loadedBHAP usersVoteKey :
  determineViewMode_spec (Status loadedBHAP) (isSome userKey)
    (isAuthor userKey loadedBHAP) (isSome usersVoteKey)
    (decideOptions userKey loadedBHAP usersVoteKey).
Proof.
  unfold decideOptions, isAuthor.
  destruct userKey as [uk|]; simpl; [|constructor].
  destruct (String.eqb_spec (Status loadedBHAP) draftStatus) as [Hd|Hd].
  - rewrite Hd. destruct (keyEqual uk (Author loadedBHAP)); constructor.
  - destruct (String.eqb_spec (Status loadedBHAP) discussionStatus) as [Hs|Hs].
    + rewrite Hs. destruct (keyEqual uk (Author loadedBHAP)); [constructor|].
      destruct usersVoteKey; constructor.
    + constructor; assumption.
Qed.

Lemma determineViewMode_spec_functional st authenticated author voted m m' :
  determineViewMode_spec st authenticated author voted m ->
  determineViewMode_spec st authenticated author voted m' ->
  m = m'.
Proof.
  intros H H'.
  destruct H; inversion H'; subst;
    try reflexivity; try discriminate; congruence.
Qed.

Lemma decideOptions_order userKey loadedBHAP usersVoteKey :
  decideOptions userKey loadedBHAP usersVoteKey =
  determineViewMode (Status loadedBHAP) (isSome userKey)
    (isAuthor userKey loadedBHAP) (isSome usersVoteKey).
Proof.
  unfold decideOptions, determineViewMode, isAuthor.
  destruct userKey, usersVoteKey; reflexivity.
Qed.

(** C2.  On every input the mode the page decides on is the one the
    spec's decision order computes from the status and the three facts
    about the viewer (authenticated, author, has voted); it is the one
    the spec's table gives for them and the table gives no other; it is
    one of the seven modes, which are pairwise different; and a viewer
    who is not logged in gets [notLoggedIn] whatever the status. *)
Theorem decideOptions_total_partition :
  forall (userKey : option Key) (loadedBHAP : bhap) (usersVoteKey : option Key),
    let mode := decideOptions userKey loadedBHAP usersVoteKey in
    mode = determineViewMode (Status loadedBHAP) (isSome userKey)
             (isAuthor userKey loadedBHAP) (isSome usersVoteKey) /\
    determineViewMode_spec (Status loadedBHAP) (isSome userKey)
      (isAuthor userKey loadedBHAP) (isSome usersVoteKey) mode /\
    (forall mode',
       determineViewMode_spec (Status loadedBHAP) (isSome userKey)
         (isAuthor userKey loadedBHAP) (isSome usersVoteKey) mode' ->
       mode' = mode) /\
    In mode sevenModes /\
    NoDup sevenModes /\
    (isSome userKey = false -> mode = notLoggedIn).
Proof.
  intros userKey loadedBHAP usersVoteKey mode.
  pose proof (decideOptions_meets_spec userKey loadedBHAP usersVoteKey) as Hspec.
  fold mode in Hspec.
  split; [apply decideOptions_order|].
  split; [exact Hspec|].
  split.
  { intros mode' H'. eapply determineViewMode_spec_functional; eassumption. }
  split.
  { destruct Hspec; unfold sevenModes; simpl; auto 10. }
  split; [apply sevenModes_NoDup|].
  intros Hno. subst mode. destruct userKey; [discriminate Hno | reflexivity].
Qed.

Lemma decideOptions_total_partition_witness :
  decideOptions None (proposal 1 draftStatus) None = notLoggedIn.
Proof.
  exact (proj2 (proj2 (proj2 (proj2 (proj2
           (decideOptions_total_partition None (proposal 1 draftStatus) None)))))
           eq_refl).
Defined.

(** ** bhap_page.go: the vote breakdown *)

Lemma votesWith_nil s : votesWith s [] = 0.
Proof. reflexivity. Qed.

Lemma votesWith_cons s v l :
  votesWith s (v :: l) =
  (if (Value v =? s)%string then 1 else 0) + votesWith s l.
Proof.
  unfold votesWith. simpl filter.
  destruct (Value v =? s)%string; simpl List.length; lia.
Qed.

Lemma votesWith_nonneg s l : 0 <= votesWith s l.
Proof. unfold votesWith. lia. Qed.

Lemma votesWith_sum_le l :
  votesWith acceptedStatus l + votesWith rejectedStatus l
  <= Z.of_nat (List.length l).
Proof.
  induction l as [|v l IH].
  - rewrite !votesWith_nil. simpl. lia.
  - rewrite !votesWith_cons. simpl List.length.
    destruct (String.eqb_spec (Value v) acceptedStatus) as [Ha|Ha].
    + rewrite Ha. replace (acceptedStatus =? rejectedStatus)%string with false
        by reflexivity. lia.
    + destruct (Value v =? rejectedStatus)%string; lia.
Qed.

(** The loop counts exactly, as long as the list is one a Go slice can be. *)
Lemma fold_countVote l :
  forall a r,
    0 <= a -> 0 <= r ->
    a + r + Z.of_nat (List.length l) <= GoInt.max_int ->
    fold_left countVote l (a, r) =
    (a + votesWith acceptedStatus l, r + votesWith rejectedStatus l).
Proof.
  induction l as [|v l IH]; intros a r Ha Hr Hlen.
  - rewrite !votesWith_nil. simpl. f_equal; lia.
  - rewrite !votesWith_cons. simpl fold_left. simpl List.length in Hlen.
    rewrite max_int_value in *.
    destruct (String.eqb_spec (Value v) acceptedStatus) as [Hv|Hv].
    + rewrite Hv. replace (acceptedStatus =? rejectedStatus)%string with false
        by reflexivity.
      unfold GoInt.add. rewrite wrap_in_int
        by (unfold GoInt.in_int; rewrite min_int_value, max_int_value; lia).
      rewrite IH by (rewrite ?max_int_value; lia). f_equal; lia.
    + destruct (Value v =? rejectedStatus)%string.
      * unfold GoInt.add. rewrite wrap_in_int
          by (unfold GoInt.in_int; rewrite min_int_value, max_int_value; lia).
        rewrite IH by (rewrite ?max_int_value; lia). f_equal; lia.
      * rewrite IH by (rewrite ?max_int_value; lia). f_equal; lia.
Qed.

Lemma voteBreakdown_exact allVotes userCount :
  0 <= userCount <= GoInt.max_int ->
  Z.of_nat (List.length allVotes) <= GoInt.max_int ->
  voteBreakdown allVotes userCount =
  mkBreakdown (votesWith acceptedStatus allVotes)
              (votesWith rejectedStatus allVotes)
              (userCount - (votesWith acceptedStatus allVotes
                            + votesWith rejectedStatus allVotes) - 1).
Proof.
  intros Hn Hlen. unfold voteBreakdown.
  rewrite fold_countVote by lia. simpl Z.add.
  pose proof (votesWith_nonneg acceptedStatus allVotes).
  pose proof (votesWith_nonneg rejectedStatus allVotes).
  pose proof (votesWith_sum_le allVotes).
  rewrite max_int_value in *.
  unfold GoInt.sub, GoInt.add.
  assert (Hin : forall z, -9223372036854775808 <= z <= 9223372036854775807 ->
                          GoInt.wrap z = z).
  { intros z Hz. apply wrap_in_int. unfold GoInt.in_int.
    rewrite min_int_value, max_int_value. exact Hz. }
  rewrite (Hin (votesWith acceptedStatus allVotes
                + votesWith rejectedStatus allVotes)) by lia.
  rewrite (Hin (userCount - _)) by lia.
  rewrite Hin by lia.
  reflexivity.
Qed.

(** C5.  With more than one registered user, the three counts of the
    breakdown add up to the number of users less the author. *)
Theorem counts_sum_to_denominator (allVotes : list vote) (userCount : Z) :
  1 < userCount <= GoInt.max_int ->
  Z.of_nat (List.length allVotes) <= GoInt.max_int ->
  let counts := voteBreakdown allVotes userCount in
  acceptedCount counts + rejectedCount counts + undecidedCount counts
  = userCount - 1.
Proof.
  intros Hn Hlen. rewrite voteBreakdown_exact by lia. simpl. lia.
Qed.

Lemma counts_sum_to_denominator_witness :
  let counts :=
    voteBreakdown [ballot 2 acceptedStatus; ballot 3 "Abstain";
                   ballot 4 rejectedStatus] 5 in
  acceptedCount counts + rejectedCount counts + undecidedCount counts = 4.
Proof.
  apply (counts_sum_to_denominator
           [ballot 2 acceptedStatus; ballot 3 "Abstain";
            ballot 4 rejectedStatus] 5).
  - rewrite max_int_value. lia.
  - rewrite max_int_value. simpl. lia.
Defined.

(** ** bhap_page.go: the handler *)

Lemma serveBHAPPage_lookups s idStr loadedBHAP u userKey allVotes userCount
    usersVote usersVoteKey :
  lookups s idStr loadedBHAP u userKey allVotes userCount usersVote
          usersVoteKey ->
  serveBHAPPage s idStr =
  fillPage loadedBHAP (Run s (Content loadedBHAP)) u userKey allVotes
           userCount usersVote usersVoteKey.
Proof.
  intros (id & bhapKey & author & H1 & H2 & H3 & H4 & H5 & H6 & H7).
  unfold serveBHAPPage. rewrite H1, H2, H3, H4, H5, H6, H7. reflexivity.
Qed.

Lemma servicesWith_lookups loadedBHAP userKey allVotes userCount usersVote
    usersVoteKey idStr :
  lookups (servicesWith loadedBHAP userKey allVotes userCount usersVote
                        usersVoteKey)
          idStr loadedBHAP viewer userKey allVotes userCount usersVote
          usersVoteKey.
Proof.
  exists (ID loadedBHAP), (bhapKeyOf 1), (mkUser "Grace" "Hopper").
  repeat split.
Qed.

Lemma percent_zero_divisor count userCount :
  GoInt.sub userCount 1 = 0 -> percent count userCount = None.
Proof.
  intros H. unfold percent, GoInt.quo. rewrite H. reflexivity.
Qed.

Lemma percent_nonzero_divisor count userCount :
  GoInt.sub userCount 1 <> 0 ->
  percent count userCount =
  Some (GoInt.mul (GoInt.wrap (Z.quot count (GoInt.sub userCount 1))) 100).
Proof.
  intros H. unfold percent, GoInt.quo.
  destruct (Z.eqb_spec (GoInt.sub userCount 1) 0); [contradiction|reflexivity].
Qed.

(** The slip in the percentages: the quotient is taken before the
    multiplication, so that a bucket smaller than the whole shows as 0. *)
Lemma percent_below_whole count userCount :
  1 < userCount <= GoInt.max_int -> 0 <= count < userCount - 1 ->
  percent count userCount = Some 0.
Proof.
  intros Hn Hc. rewrite max_int_value in Hn.
  assert (Hsub : GoInt.sub userCount 1 = userCount - 1).
  { apply wrap_in_int. unfold GoInt.in_int.
    rewrite min_int_value, max_int_value. lia. }
  rewrite percent_nonzero_divisor by lia.
  rewrite Hsub, Z.quot_small by lia. reflexivity.
Qed.

Lemma fillPage_unknown_vote loadedBHAP html u userKey allVotes userCount
    usersVote usersVoteKey :
  selectVote usersVote usersVoteKey = None ->
  fillPage loadedBHAP html u userKey allVotes userCount usersVote usersVoteKey
  = HttpError "Unknown vote type" StatusInternalServerError.
Proof.
  intros H. unfold fillPage. rewrite H. reflexivity.
Qed.

Lemma fillPage_panics loadedBHAP html u userKey allVotes userCount
    usersVote usersVoteKey :
  selectVote usersVote usersVoteKey <> None ->
  GoInt.sub userCount 1 = 0 ->
  fillPage loadedBHAP html u userKey allVotes userCount usersVote usersVoteKey
  = Panic divideByZero.
Proof.
  intros Hv Hd. unfold fillPage.
  destruct (selectVote usersVote usersVoteKey); [|contradiction].
  rewrite !percent_zero_divisor by exact Hd. reflexivity.
Qed.

Lemma fillPage_renders loadedBHAP html u userKey allVotes userCount
    usersVote usersVoteKey :
  selectVote usersVote usersVoteKey <> None ->
  GoInt.sub userCount 1 <> 0 ->
  exists filler,
    fillPage loadedBHAP html u userKey allVotes userCount usersVote
             usersVoteKey = Rendered filler /\
    let counts := voteBreakdown allVotes userCount in
    percent (acceptedCount counts) userCount = Some (PercentAccepted filler) /\
    percent (rejectedCount counts) userCount = Some (PercentRejected filler) /\
    percent (undecidedCount counts) userCount = Some (PercentUndecided filler) /\
    VoteCount filler = Z.of_nat (List.length allVotes) /\
    OptionsMode filler = decideOptions userKey loadedBHAP usersVoteKey.
Proof.
  intros Hv Hd. unfold fillPage.
  destruct (selectVote usersVote usersVoteKey); [|contradiction].
  rewrite !percent_nonzero_divisor by exact Hd.
  eexists. split; [reflexivity|]. simpl. repeat split.
Qed.

Lemma selectVote_invalid usersVote k :
  invalidValue (Value usersVote) -> selectVote usersVote (Some k) = None.
Proof.
  intros [Ha Hr]. unfold selectVote.
  destruct (String.eqb_spec (Value usersVote) acceptedStatus); [contradiction|].
  destruct (String.eqb_spec (Value usersVote) rejectedStatus); [contradiction|].
  reflexivity.
Qed.

Lemma countVote_invalid counts v :
  invalidValue (Value v) -> countVote counts v = counts.
Proof.
  intros [Ha Hr]. unfold countVote. destruct counts as [a r].
  destruct (String.eqb_spec (Value v) acceptedStatus); [contradiction|].
  destruct (String.eqb_spec (Value v) rejectedStatus); [contradiction|].
  reflexivity.
Qed.

Lemma voteBreakdown_drops_invalid l1 v l2 userCount :
  invalidValue (Value v) ->
  voteBreakdown (l1 ++ v :: l2) userCount = voteBreakdown (l1 ++ l2) userCount.
Proof.
  intros Hv. unfold voteBreakdown.
  rewrite !fold_left_app. simpl fold_left.
  rewrite countVote_invalid by exact Hv. reflexivity.
Qed.

Lemma Rendered_not_error filler : ~ reportsError (Rendered filler).
Proof. intros (body & code & H). discriminate H. Qed.

Lemma fillPage_Rendered_fields loadedBHAP html u userKey allVotes userCount
    usersVote usersVoteKey filler :
  fillPage loadedBHAP html u userKey allVotes userCount usersVote usersVoteKey
  = Rendered filler ->
  Editable filler = isEditable (Status loadedBHAP) /\
  OptionsMode filler = decideOptions userKey loadedBHAP usersVoteKey /\
  BHAP filler = loadedBHAP.
Proof.
  unfold fillPage.
  destruct (selectVote usersVote usersVoteKey); [|discriminate].
  destruct (percent _ userCount); [|discriminate].
  destruct (percent _ userCount); [|discriminate].
  destruct (percent _ userCount); [|discriminate].
  intros H. injection H as <-. repeat split.
Qed.

(** C7.  [isEditable] is true for the [Draft] status and for no other
    status, in particular for none of the seven other constants; and on
    every page the handler renders, the [Editable] flag is set exactly
    when the BHAP shown is a draft. *)
Theorem isEditable_iff_draft :
  (forall s : status, isEditable s = true <-> s = draftStatus) /\
  Forall (fun s => isEditable s = false)
    [deferredStatus; rejectedStatus; discussionStatus; withdrawnStatus;
     acceptedStatus; replacedStatus; aprilFoolsStatus] /\
  (forall s idStr loadedBHAP u userKey allVotes userCount usersVote
          usersVoteKey filler,
     lookups s idStr loadedBHAP u userKey allVotes userCount usersVote
             usersVoteKey ->
     serveBHAPPage s idStr = Rendered filler ->
     (Editable filler = true <-> Status loadedBHAP = draftStatus)).
Proof.
  split; [|split].
  - intros s. unfold isEditable. apply String.eqb_eq.
  - repeat constructor.
  - intros s idStr loadedBHAP u userKey allVotes userCount usersVote
           usersVoteKey filler Hl Hr.
    rewrite (serveBHAPPage_lookups _ _ _ _ _ _ _ _ _ Hl) in Hr.
    apply fillPage_Rendered_fields in Hr. destruct Hr as (-> & _).
    unfold isEditable. apply String.eqb_eq.
Qed.

(** The author viewing their own draft. *)
Lemma isEditable_iff_draft_witness :
  let filler :=
    mkFiller true "Ada Lovelace" 1 (proposal 1 draftStatus) "" draftAuthor
             true "Some *markdown*" 0 2 0 0 100 in
  serveBHAPPage
    (servicesWith (proposal 1 draftStatus) (Some (userKeyOf 1)) [] 3
                  (mkVote None None "") None) "1"
  = Rendered filler /\
  Editable filler = true.
Proof.
  split; [reflexivity|].
  apply (proj2 (proj2 (proj2 isEditable_iff_draft)
           (servicesWith (proposal 1 draftStatus) (Some (userKeyOf 1)) [] 3
                         (mkVote None None "") None)
           "1" (proposal 1 draftStatus) viewer (Some (userKeyOf 1)) [] 3
           (mkVote None None "") None _
           (ex_intro _ 1 (ex_intro _ (bhapKeyOf 1)
              (ex_intro _ (mkUser "Grace" "Hopper")
                 (conj eq_refl (conj eq_refl (conj eq_refl (conj eq_refl
                    (conj eq_refl (conj eq_refl eq_refl)))))))))
           eq_refl)).
  reflexivity.
Defined.

(** C1.  The scenario of a BHAP under discussion with five registered
    users, two [Accepted] votes and one [Rejected] vote: the counts are
    2, 1 and 1, and the page is rendered with the three percentages 0, 0
    and 0, not 50, 25 and 25. *)
Theorem scenario_counts_and_percentages :
  let allVotes := [ballot 2 acceptedStatus; ballot 3 acceptedStatus;
                   ballot 4 rejectedStatus] in
  voteBreakdown allVotes 5 = mkBreakdown 2 1 1 /\
  exists filler,
    serveBHAPPage
      (servicesWith (proposal 1 discussionStatus) (Some (userKeyOf 5))
                    allVotes 5 (mkVote None None "") None) "1"
    = Rendered filler /\
    OptionsMode filler = discussionNoVote /\
    UserCount filler = 4 /\
    PercentAccepted filler = 0 /\
    PercentRejected filler = 0 /\
    PercentUndecided filler = 0 /\
    PercentAccepted filler + PercentRejected filler + PercentUndecided filler
    <> 100.
Proof.
  split; [reflexivity|].
  eexists. split; [vm_compute; reflexivity|].
  simpl. repeat split. discriminate.
Qed.

(** C3.  With a single registered user the handler, once its lookups
    have succeeded and the viewer's own vote is absent or valid, ends in
    the panic of an integer division by zero: it answers with no error of
    its own. *)
Theorem single_user_divides_by_zero s idStr loadedBHAP u userKey allVotes
    usersVote usersVoteKey :
  lookups s idStr loadedBHAP u userKey allVotes 1 usersVote usersVoteKey ->
  selectVote usersVote usersVoteKey <> None ->
  serveBHAPPage s idStr = Panic divideByZero /\
  ~ reportsError (serveBHAPPage s idStr).
Proof.
  intros Hl Hv.
  rewrite (serveBHAPPage_lookups _ _ _ _ _ _ _ _ _ Hl).
  rewrite fillPage_panics by (exact Hv || reflexivity).
  split; [reflexivity|]. intros (body & code & H). discriminate H.
Qed.

Lemma single_user_divides_by_zero_witness :
  serveBHAPPage
    (servicesWith (proposal 1 discussionStatus) (Some (userKeyOf 1)) [] 1
                  (mkVote None None "") None) "1"
  = Panic divideByZero.
Proof.
  apply (single_user_divides_by_zero
           (servicesWith (proposal 1 discussionStatus) (Some (userKeyOf 1)) [] 1
                         (mkVote None None "") None)
           "1" (proposal 1 discussionStatus) viewer (Some (userKeyOf 1)) []
           (mkVote None None "") None).
  - exists 1, (bhapKeyOf 1), (mkUser "Grace" "Hopper"). repeat split.
  - simpl. discriminate.
Defined.

(** C4.  A vote whose value is neither [Accepted] nor [Rejected] changes
    none of the three counts, and the handler, once its lookups have
    succeeded, renders the page for a list that holds such a vote instead
    of answering with an error. *)
Theorem invalid_vote_is_dropped :
  (forall l1 v l2 userCount,
     invalidValue (Value v) ->
     voteBreakdown (l1 ++ v :: l2) userCount
     = voteBreakdown (l1 ++ l2) userCount) /\
  (forall s idStr loadedBHAP u userKey allVotes userCount usersVote
          usersVoteKey,
     lookups s idStr loadedBHAP u userKey allVotes userCount usersVote
             usersVoteKey ->
     (exists v, In v allVotes /\ invalidValue (Value v)) ->
     selectVote usersVote usersVoteKey <> None ->
     GoInt.sub userCount 1 <> 0 ->
     exists filler,
       serveBHAPPage s idStr = Rendered filler /\
       VoteCount filler = Z.of_nat (List.length allVotes)).
Proof.
  split.
  - intros. now apply voteBreakdown_drops_invalid.
  - intros s idStr loadedBHAP u userKey allVotes userCount usersVote
           usersVoteKey Hl _ Hv Hd.
    rewrite (serveBHAPPage_lookups _ _ _ _ _ _ _ _ _ Hl).
    destruct (fillPage_renders loadedBHAP (Run s (Content loadedBHAP)) u
                userKey allVotes userCount usersVote usersVoteKey Hv Hd)
      as (filler & Hf & _ & _ & _ & Hc & _).
    exists filler. split; assumption.
Qed.

Lemma invalid_vote_is_dropped_witness :
  voteBreakdown ([ballot 2 acceptedStatus] ++ ballot 3 "Maybe" :: []) 3
  = voteBreakdown ([ballot 2 acceptedStatus] ++ []) 3 /\
  exists filler,
    serveBHAPPage
      (servicesWith (proposal 1 discussionStatus) (Some (userKeyOf 1))
                    [ballot 2 acceptedStatus; ballot 3 "Maybe"] 3
                    (mkVote None None "") None) "1"
    = Rendered filler /\
    VoteCount filler = 2.
Proof.
  split.
  - apply (proj1 invalid_vote_is_dropped [ballot 2 acceptedStatus]
             (ballot 3 "Maybe") [] 3).
    split; discriminate.
  - apply (proj2 invalid_vote_is_dropped
             (servicesWith (proposal 1 discussionStatus) (Some (userKeyOf 1))
                           [ballot 2 acceptedStatus; ballot 3 "Maybe"] 3
                           (mkVote None None "") None)
             "1" (proposal 1 discussionStatus) viewer (Some (userKeyOf 1))
             [ballot 2 acceptedStatus; ballot 3 "Maybe"] 3
             (mkVote None None "") None).
    + exists 1, (bhapKeyOf 1), (mkUser "Grace" "Hopper"). repeat split.
    + exists (ballot 3 "Maybe"). split; [simpl; auto|split; discriminate].
    + simpl. discriminate.
    + vm_compute. discriminate.
Defined.

Lemma selectVote_None_iff usersVote usersVoteKey :
  selectVote usersVote usersVoteKey = None <->
  exists k, usersVoteKey = Some k /\ invalidValue (Value usersVote).
Proof.
  split.
  - unfold selectVote, invalidValue.
    destruct usersVoteKey as [k|]; [|discriminate].
    destruct (String.eqb_spec (Value usersVote) acceptedStatus); [discriminate|].
    destruct (String.eqb_spec (Value usersVote) rejectedStatus); [discriminate|].
    intros _. exists k. auto.
  - intros (k & -> & Hv). now apply selectVote_invalid.
Qed.

Lemma fillPage_valid_vote_no_error loadedBHAP html u userKey allVotes
    userCount usersVote usersVoteKey :
  selectVote usersVote usersVoteKey <> None ->
  ~ reportsError (fillPage loadedBHAP html u userKey allVotes userCount
                           usersVote usersVoteKey).
Proof.
  intros Hv.
  destruct (Z.eq_dec (GoInt.sub userCount 1) 0) as [Hd|Hd].
  - rewrite fillPage_panics by assumption.
    intros (body & code & H). discriminate H.
  - destruct (fillPage_renders loadedBHAP html u userKey allVotes userCount
                usersVote usersVoteKey Hv Hd) as (filler & -> & _).
    apply Rendered_not_error.
Qed.

(** C6, as the spec has it, fails: the claim of an integrity error for a
    negative undecided count does not hold with two registered users and three [Accepted] votes: the undecided
    count is -2 and the page is rendered, with -200 percent undecided. *)
Lemma negative_undecided_is_rendered :
  let allVotes := [ballot 2 acceptedStatus; ballot 3 acceptedStatus;
                   ballot 4 acceptedStatus] in
  let response :=
    serveBHAPPage
      (servicesWith (proposal 1 discussionStatus) (Some (userKeyOf 1))
                    allVotes 2 (mkVote None None "") None) "1" in
  undecidedCount (voteBreakdown allVotes 2) = -2 /\
  (exists filler, response = Rendered filler /\ PercentUndecided filler = -200) /\
  ~ (undecidedCount (voteBreakdown allVotes 2) < 0 -> reportsError response).
Proof.
  split; [reflexivity|]. split.
  - eexists. split; [vm_compute; reflexivity | reflexivity].
  - intros H.
    assert (Hneg : undecidedCount
              (voteBreakdown [ballot 2 acceptedStatus; ballot 3 acceptedStatus;
                              ballot 4 acceptedStatus] 2) < 0)
      by (vm_compute; reflexivity).
    destruct (H Hneg) as (body & code & Herr). vm_compute in Herr.
    discriminate Herr.
Qed.

(** C6, as the code has it.  When the undecided count comes out negative,
    the handler neither reports it nor clamps it: the count is the number
    of users, less the author, less the accepted and rejected votes, and
    with the lookups done, the viewer's own vote absent or valid and a
    number of users other than 1, the page is rendered with the undecided
    percentage computed from that negative count. *)
Theorem negative_undecided_kept s idStr loadedBHAP u userKey allVotes
    userCount usersVote usersVoteKey :
  lookups s idStr loadedBHAP u userKey allVotes userCount usersVote
          usersVoteKey ->
  0 <= userCount <= GoInt.max_int ->
  Z.of_nat (List.length allVotes) <= GoInt.max_int ->
  undecidedCount (voteBreakdown allVotes userCount) < 0 ->
  selectVote usersVote usersVoteKey <> None ->
  userCount <> 1 ->
  undecidedCount (voteBreakdown allVotes userCount)
  = userCount - 1 - (votesWith acceptedStatus allVotes
                     + votesWith rejectedStatus allVotes) /\
  ~ reportsError (serveBHAPPage s idStr) /\
  exists filler,
    serveBHAPPage s idStr = Rendered filler /\
    Some (PercentUndecided filler)
    = percent (undecidedCount (voteBreakdown allVotes userCount)) userCount.
Proof.
  intros Hl Hn Hlen Hneg Hv Hone.
  rewrite (serveBHAPPage_lookups _ _ _ _ _ _ _ _ _ Hl).
  assert (Hd : GoInt.sub userCount 1 <> 0).
  { unfold GoInt.sub. rewrite wrap_in_int; [lia|].
    unfold GoInt.in_int. rewrite min_int_value. rewrite max_int_value in *. lia. }
  split.
  - rewrite voteBreakdown_exact by assumption. simpl. lia.
  - split; [now apply fillPage_valid_vote_no_error|].
    destruct (fillPage_renders loadedBHAP (Run s (Content loadedBHAP)) u
                userKey allVotes userCount usersVote usersVoteKey Hv Hd)
      as (filler & Hf & _ & _ & Hu & _).
    exists filler. split; [exact Hf | symmetry; exact Hu].
Qed.

Lemma negative_undecided_kept_witness :
  undecidedCount
    (voteBreakdown [ballot 2 acceptedStatus; ballot 3 acceptedStatus;
                    ballot 4 rejectedStatus] 2)
  = 2 - 1 - (votesWith acceptedStatus
               [ballot 2 acceptedStatus; ballot 3 acceptedStatus;
                ballot 4 rejectedStatus]
             + votesWith rejectedStatus
                 [ballot 2 acceptedStatus; ballot 3 acceptedStatus;
                  ballot 4 rejectedStatus]).
Proof.
  apply (negative_undecided_kept
           (servicesWith (proposal 1 discussionStatus) (Some (userKeyOf 1))
                         [ballot 2 acceptedStatus; ballot 3 acceptedStatus;
                          ballot 4 rejectedStatus] 2
                         (ballot 1 rejectedStatus) (Some (userKeyOf 9)))
           "1" (proposal 1 discussionStatus) viewer (Some (userKeyOf 1))
           [ballot 2 acceptedStatus; ballot 3 acceptedStatus;
            ballot 4 rejectedStatus] 2
           (ballot 1 rejectedStatus) (Some (userKeyOf 9))).
  - exists 1, (bhapKeyOf 1), (mkUser "Grace" "Hopper"). repeat split.
  - rewrite max_int_value. lia.
  - rewrite max_int_value. simpl. lia.
  - vm_compute. reflexivity.
  - simpl. discriminate.
  - lia.
Defined.

(** C9.  Once the lookups have succeeded, the handler answers
    "Unknown vote type" with status 500 exactly when the viewer's own vote
    exists and holds a value other than [Accepted] and [Rejected]; invalid
    values among the votes of the others never lead to an error answer. *)
Theorem own_vote_is_validated s idStr loadedBHAP u userKey allVotes userCount
    usersVote usersVoteKey :
  lookups s idStr loadedBHAP u userKey allVotes userCount usersVote
          usersVoteKey ->
  (serveBHAPPage s idStr = HttpError "Unknown vote type" 500 <->
   exists k, usersVoteKey = Some k /\ invalidValue (Value usersVote)) /\
  ((exists v, In v allVotes /\ invalidValue (Value v)) ->
   selectVote usersVote usersVoteKey <> None ->
   ~ reportsError (serveBHAPPage s idStr)).
Proof.
  intros Hl. rewrite (serveBHAPPage_lookups _ _ _ _ _ _ _ _ _ Hl).
  split.
  - rewrite <- selectVote_None_iff. split.
    + intros Herr.
      destruct (selectVote usersVote usersVoteKey) eqn:E; [|reflexivity].
      exfalso.
      apply (fillPage_valid_vote_no_error loadedBHAP
               (Run s (Content loadedBHAP)) u userKey allVotes userCount
               usersVote usersVoteKey).
      * rewrite E. discriminate.
      * rewrite Herr. now exists "Unknown vote type", 500.
    + apply fillPage_unknown_vote.
  - intros _. apply fillPage_valid_vote_no_error.
Qed.

Lemma own_vote_is_validated_witness :
  serveBHAPPage
    (servicesWith (proposal 1 discussionStatus) (Some (userKeyOf 2))
                  [ballot 2 "Maybe"] 3 (ballot 2 "Maybe") (Some (userKeyOf 7)))
    "1"
  = HttpError "Unknown vote type" 500.
Proof.
  apply (proj1 (own_vote_is_validated
           (servicesWith (proposal 1 discussionStatus) (Some (userKeyOf 2))
                         [ballot 2 "Maybe"] 3 (ballot 2 "Maybe")
                         (Some (userKeyOf 7)))
           "1" (proposal 1 discussionStatus) viewer (Some (userKeyOf 2))
           [ballot 2 "Maybe"] 3 (ballot 2 "Maybe") (Some (userKeyOf 7))
           (ex_intro _ 1 (ex_intro _ (bhapKeyOf 1)
              (ex_intro _ (mkUser "Grace" "Hopper")
                 (conj eq_refl (conj eq_refl (conj eq_refl (conj eq_refl
                    (conj eq_refl (conj eq_refl eq_refl))))))))))).
  exists (userKeyOf 7). split; [reflexivity | split; discriminate].
Defined.

(** ** bhap.go: [bhapByID], and how the three queries fit together *)

Lemma passesAll_ID_equal id b :
  passesAll [mkQueryFilter "ID" equal id] b = (ID b =? id).
Proof.
  unfold passesAll, passes. simpl. apply andb_true_r.
Qed.

Lemma filter_passesAll_ID id l :
  filter (passesAll [mkQueryFilter "ID" equal id]) l
  = filter (fun b => ID b =? id) l.
Proof.
  apply filter_ext. intros b. apply passesAll_ID_equal.
Qed.

(** What [bhapByID] computes when the datastore answers: the first stored
    BHAP with the ID, if any. *)
Lemma bhapByID_first_match ctx id :
  failure ctx = None ->
  BhapStore.bhapByID ctx id =
  match filter (fun b => ID b =? id) (stored ctx) with
  | [] => (zeroBhap, false, None)
  | first :: _ => (first, true, None)
  end.
Proof.
  intros Hf. unfold BhapStore.bhapByID, GetAllFiltered.
  cbn [fq_err fq_rest fq_filter LimitFiltered Filter unfiltered].
  change (fq_err (Filter "ID =" id (unfiltered (NewQuery bhapEntityName))))
    with (@None error).
  rewrite Hf.
  change (fq_filter (Filter "ID =" id (unfiltered (NewQuery bhapEntityName))))
    with [mkQueryFilter "ID" equal id].
  change (fq_rest (Filter "ID =" id (unfiltered (NewQuery bhapEntityName))))
    with (NewQuery bhapEntityName).
  cbn. rewrite filter_passesAll_ID.
  destruct (filter (fun b => ID b =? id) (stored ctx)); reflexivity.
Qed.

Lemma bhapByID_failure ctx id e :
  failure ctx = Some e -> BhapStore.bhapByID ctx id = (zeroBhap, false, Some e).
Proof.
  intros Hf. unfold BhapStore.bhapByID, GetAllFiltered.
  change (fq_err (LimitFiltered 1
            (Filter "ID =" id (unfiltered (NewQuery bhapEntityName)))))
    with (@None error).
  rewrite Hf. reflexivity.
Qed.

(** X1.  When [bhapByID] says the BHAP exists, what it returns is a stored
    BHAP with the requested ID, and there is no error; when it says the
    BHAP does not exist, what it returns is the zero BHAP. *)
Theorem bhapByID_sound ctx id b found err :
  BhapStore.bhapByID ctx id = (b, found, err) ->
  (found = true -> err = None /\ In b (stored ctx) /\ ID b = id) /\
  (found = false -> b = zeroBhap).
Proof.
  destruct (failure ctx) as [e|] eqn:Hf.
  - rewrite (bhapByID_failure ctx id e Hf). intros H. injection H as <- <- <-.
    split; [discriminate | reflexivity].
  - rewrite (bhapByID_first_match ctx id Hf).
    destruct (filter (fun b => ID b =? id) (stored ctx)) as [|first rest] eqn:E;
      intros H; injection H as <- <- <-.
    + split; [discriminate | reflexivity].
    + split; [|discriminate]. intros _.
      assert (Hin : In first (filter (fun b => ID b =? id) (stored ctx)))
        by (rewrite E; now left).
      apply filter_In in Hin. destruct Hin as [Hin Hid].
      repeat split; [exact Hin | lia].
Qed.

Lemma bhapByID_sound_witness :
  In (proposal 7 discussionStatus)
     (stored (mkDatastore [proposal 3 draftStatus; proposal 7 discussionStatus]
                          None)).
Proof.
  refine (proj1 (proj2 (proj1 (bhapByID_sound
            (mkDatastore [proposal 3 draftStatus; proposal 7 discussionStatus]
                         None)
            7 (proposal 7 discussionStatus) true None eq_refl) eq_refl))).
Defined.

(** X2.  When the datastore answers, [bhapByID] says the BHAP exists
    exactly when some stored BHAP has the ID; otherwise it returns the
    zero BHAP, "exists" false and no error. *)
Theorem bhapByID_exists_iff ctx id :
  failure ctx = None ->
  ((exists b, BhapStore.bhapByID ctx id = (b, true, None)) <->
   (exists b, In b (stored ctx) /\ ID b = id)) /\
  ((forall b, In b (stored ctx) -> ID b <> id) ->
   BhapStore.bhapByID ctx id = (zeroBhap, false, None)).
Proof.
  intros Hf. rewrite (bhapByID_first_match ctx id Hf).
  destruct (filter (fun b => ID b =? id) (stored ctx)) as [|first rest] eqn:E.
  - assert (Hnone : forall b, In b (stored ctx) -> ID b <> id).
    { intros b Hin Hid.
      assert (Hb : In b (filter (fun b => ID b =? id) (stored ctx))).
      { apply filter_In. split; [exact Hin | lia]. }
      rewrite E in Hb. destruct Hb. }
    split; [|reflexivity]. split.
    + intros (b & H). discriminate H.
    + intros (b & Hin & Hid). exfalso. exact (Hnone b Hin Hid).
  - assert (Hin : In first (filter (fun b => ID b =? id) (stored ctx)))
      by (rewrite E; now left).
    apply filter_In in Hin. destruct Hin as [Hin Hid].
    split.
    + split; [|intros _; now exists first].
      intros _. exists first. split; [exact Hin | lia].
    + intros Hnone. exfalso. apply (Hnone first Hin). lia.
Qed.

Lemma bhapByID_exists_iff_witness :
  BhapStore.bhapByID
    (mkDatastore [proposal 3 draftStatus; proposal 7 discussionStatus] None) 4
  = (zeroBhap, false, None).
Proof.
  apply (proj2 (bhapByID_exists_iff
           (mkDatastore [proposal 3 draftStatus; proposal 7 discussionStatus]
                        None) 4 eq_refl)).
  intros b [<-|[<-|[]]]; simpl; discriminate.
Defined.

Lemma filter_none {A : Type} (f : A -> bool) (l : list A) :
  (forall c, In c l -> f c = false) -> filter f l = [].
Proof.
  induction l as [|c l IH]; intros H; [reflexivity|].
  simpl. rewrite (H c) by now left.
  apply IH. intros d Hd. apply H. now right.
Qed.

Lemma filter_unique_ID b l :
  NoDup (map ID l) -> In b l ->
  filter (fun c => ID c =? ID b) l = [b].
Proof.
  induction l as [|c l IH]; intros Hnd Hin; [destruct Hin|].
  simpl in Hnd. inversion Hnd as [|? ? Hnot Hnd']; subst.
  simpl. destruct Hin as [->|Hin].
  - rewrite Z.eqb_refl. f_equal.
    rewrite filter_none; [reflexivity|].
    intros c Hc. apply Z.eqb_neq. intros Heq. apply Hnot.
    rewrite <- Heq. now apply in_map.
  - destruct (Z.eqb_spec (ID c) (ID b)) as [Heq|Hne].
    + exfalso. apply Hnot. rewrite Heq. now apply in_map.
    + now apply IH.
Qed.

(** X3.  In a store whose IDs are pairwise different, looking a stored
    BHAP up by its ID gives back that very BHAP. *)
Theorem bhapByID_stored ctx b :
  failure ctx = None ->
  NoDup (map ID (stored ctx)) ->
  In b (stored ctx) ->
  BhapStore.bhapByID ctx (ID b) = (b, true, None).
Proof.
  intros Hf Hnd Hin. rewrite (bhapByID_first_match ctx _ Hf).
  rewrite filter_unique_ID by assumption. reflexivity.
Qed.

Lemma bhapByID_stored_witness :
  BhapStore.bhapByID
    (mkDatastore [proposal 3 draftStatus; proposal 7 discussionStatus] None) 7
  = (proposal 7 discussionStatus, true, None).
Proof.
  apply (bhapByID_stored
           (mkDatastore [proposal 3 draftStatus; proposal 7 discussionStatus]
                        None)
           (proposal 7 discussionStatus) eq_refl).
  - simpl. repeat constructor; simpl; intuition discriminate.
  - simpl. auto.
Defined.

Lemma bhapByID_hit ctx b :
  failure ctx = None -> In b (stored ctx) ->
  exists b', BhapStore.bhapByID ctx (ID b) = (b', true, None) /\
             In b' (stored ctx) /\ ID b' = ID b.
Proof.
  intros Hf Hin. rewrite (bhapByID_first_match ctx _ Hf).
  destruct (filter (fun c => ID c =? ID b) (stored ctx)) as [|first rest] eqn:E.
  - assert (Hb : In b (filter (fun c => ID c =? ID b) (stored ctx))).
    { apply filter_In. split; [exact Hin | apply Z.eqb_refl]. }
    rewrite E in Hb. destruct Hb.
  - assert (Hfirst : In first (filter (fun c => ID c =? ID b) (stored ctx)))
      by (rewrite E; now left).
    apply filter_In in Hfirst. destruct Hfirst as [H1 H2].
    exists first. repeat split; [exact H1 | lia].
Qed.

Lemma bhapByID_miss ctx id :
  failure ctx = None -> Forall (fun b => ID b <> id) (stored ctx) ->
  BhapStore.bhapByID ctx id = (zeroBhap, false, None).
Proof.
  intros Hf Hall. rewrite (bhapByID_first_match ctx _ Hf).
  rewrite filter_none; [reflexivity|].
  rewrite Forall_forall in Hall. intros c Hc. apply Z.eqb_neq. now apply Hall.
Qed.

Lemma maxID_exists l : l <> [] -> exists m, maxID m l.
Proof.
  induction l as [|b l IH]; [congruence|]. intros _.
  destruct l as [|c l].
  - exists (ID b). split; [now left|]. repeat constructor. lia.
  - destruct IH as (m & Hin & Hall); [discriminate|].
    destruct (Z_le_gt_dec (ID b) m) as [Hle|Hgt].
    + exists m. split; [now right|]. constructor; assumption.
    + exists (ID b). split; [now left|]. constructor; [lia|].
      eapply Forall_impl; [|exact Hall]. simpl. intros; lia.
Qed.

Lemma nextID_empty ctx :
  failure ctx = None -> stored ctx = [] -> nextID ctx = (0, None).
Proof.
  intros Hf He. unfold nextID. rewrite GetAll_ok; [|exact Hf|reflexivity].
  cbn [q_limit q_order Limit Order NewQuery limited]. rewrite ordered_ID, He.
  reflexivity.
Qed.

Lemma nextID_of_max ctx m :
  failure ctx = None -> maxID m (stored ctx) ->
  nextID ctx = (GoInt.add m 1, None).
Proof.
  intros Hf [Hin Hmax]. unfold nextID.
  rewrite GetAll_ok; [|exact Hf|reflexivity].
  cbn [q_limit q_order Limit Order NewQuery limited]. rewrite ordered_ID.
  pose proof (sortBy_perm descending ID (stored ctx)) as Hperm.
  pose proof (sortBy_sorted descending ID (stored ctx)) as Hsort.
  destruct (sortBy descending ID (stored ctx)) as [|first rest].
  - apply Permutation_sym, Permutation_nil in Hperm.
    rewrite Hperm in Hin. destruct Hin.
  - cbn [firstn]. f_equal. f_equal.
    apply sorted_descending_head in Hsort.
    rewrite Forall_forall in Hsort, Hmax.
    assert (ID first <= m).
    { apply Hmax. eapply Permutation_in; [apply Permutation_sym, Hperm|now left]. }
    apply in_map_iff in Hin. destruct Hin as (c & Hc & Hcin).
    assert (ID c <= ID first).
    { apply Hsort. eapply Permutation_in; [exact Hperm | exact Hcin]. }
    lia.
Qed.

Lemma add_one_exact m :
  GoInt.min_int <= m < GoInt.max_int -> GoInt.add m 1 = m + 1.
Proof.
  intros H. unfold GoInt.add. apply wrap_in_int. unfold GoInt.in_int. lia.
Qed.

Lemma nextID_above_all ctx :
  failure ctx = None ->
  Forall (fun b => GoInt.min_int <= ID b < GoInt.max_int) (stored ctx) ->
  exists n, nextID ctx = (n, None) /\ GoInt.min_int <= n
            /\ Forall (fun b => ID b < n) (stored ctx).
Proof.
  intros Hf Hr.
  destruct (stored ctx) as [|b l] eqn:E.
  - exists 0. rewrite nextID_empty by assumption.
    repeat split; [rewrite min_int_value; lia | constructor].
  - destruct (maxID_exists (b :: l)) as (m & Hm); [discriminate|].
    assert (Hm' : maxID m (stored ctx)) by (rewrite E; exact Hm).
    exists (m + 1). destruct Hm as [Hin Hall].
    assert (Hrange : GoInt.min_int <= m < GoInt.max_int).
    { apply in_map_iff in Hin. destruct Hin as (c & <- & Hc).
      rewrite Forall_forall in Hr. now apply Hr. }
    rewrite (nextID_of_max ctx m Hf Hm'), add_one_exact by exact Hrange.
    repeat split; [lia|].
    eapply Forall_impl; [|exact Hall]. simpl. intros; lia.
Qed.

(** X4.  When the datastore answers and every stored ID leaves room for
    one more, the ID [nextID] returns is above every stored ID, and
    [bhapByID] finds no BHAP under it: it is unused. *)
Theorem nextID_unused ctx :
  failure ctx = None ->
  Forall (fun b => GoInt.min_int <= ID b < GoInt.max_int) (stored ctx) ->
  exists n,
    nextID ctx = (n, None) /\
    Forall (fun b => ID b < n) (stored ctx) /\
    BhapStore.bhapByID ctx n = (zeroBhap, false, None).
Proof.
  intros Hf Hr. destruct (nextID_above_all ctx Hf Hr) as (n & Hn & _ & Hall).
  exists n. repeat split; [exact Hn | exact Hall |].
  apply bhapByID_miss; [exact Hf|].
  eapply Forall_impl; [|exact Hall]. simpl. intros; lia.
Qed.

Lemma nextID_unused_witness :
  exists n,
    nextID (mkDatastore [proposal 3 draftStatus; proposal 7 discussionStatus]
                        None) = (n, None) /\
    BhapStore.bhapByID
      (mkDatastore [proposal 3 draftStatus; proposal 7 discussionStatus] None) n
    = (zeroBhap, false, None).
Proof.
  destruct (nextID_unused
              (mkDatastore [proposal 3 draftStatus; proposal 7 discussionStatus]
                           None) eq_refl) as (n & Hn & _ & Hb).
  - rewrite min_int_value, max_int_value. repeat constructor; simpl; lia.
  - exists n. split; assumption.
Defined.

(** X5.  Allocation followed by creation: when a BHAP with the ID that
    [nextID] returned is added to the store, the next call of [nextID]
    returns one more, and IDs that were pairwise different stay so. *)
Theorem nextID_after_create ctx ctx' b n :
  failure ctx = None -> failure ctx' = None ->
  Forall (fun c => GoInt.min_int <= ID c < GoInt.max_int) (stored ctx) ->
  nextID ctx = (n, None) ->
  n < GoInt.max_int ->
  ID b = n ->
  Permutation (stored ctx') (b :: stored ctx) ->
  nextID ctx' = (n + 1, None) /\
  (NoDup (map ID (stored ctx)) -> NoDup (map ID (stored ctx'))).
Proof.
  intros Hf Hf' Hr Hn Hroom Hb Hperm.
  destruct (nextID_above_all ctx Hf Hr) as (n' & Hn' & Hmin & Hall).
  rewrite Hn in Hn'. injection Hn' as <-.
  split.
  - rewrite (nextID_of_max ctx' n Hf'), add_one_exact; [reflexivity|lia|].
    split.
    + apply in_map_iff. exists b. split; [exact Hb|].
      eapply Permutation_in; [apply Permutation_sym, Hperm | now left].
    + eapply Permutation_Forall; [apply Permutation_sym, Hperm|].
      constructor; [lia|].
      eapply Forall_impl; [|exact Hall]. simpl. intros; lia.
  - intros Hnd.
    eapply Permutation_NoDup;
      [apply Permutation_sym, Permutation_map, Hperm|].
    simpl. constructor; [|exact Hnd].
    rewrite Hb. intros Hin. apply in_map_iff in Hin.
    destruct Hin as (c & Hc & Hcin).
    rewrite Forall_forall in Hall. specialize (Hall c Hcin). lia.
Qed.

Lemma nextID_after_create_witness :
  nextID (mkDatastore [proposal 8 draftStatus; proposal 3 draftStatus;
                       proposal 7 discussionStatus] None) = (8 + 1, None).
Proof.
  apply (nextID_after_create
           (mkDatastore [proposal 3 draftStatus; proposal 7 discussionStatus]
                        None)
           (mkDatastore [proposal 8 draftStatus; proposal 3 draftStatus;
                         proposal 7 discussionStatus] None)
           (proposal 8 draftStatus) 8 eq_refl eq_refl).
  - rewrite min_int_value, max_int_value. repeat constructor; simpl; lia.
  - reflexivity.
  - rewrite max_int_value. lia.
  - reflexivity.
  - apply Permutation_refl.
Defined.

Lemma allBHAPs_sortBy ctx :
  failure ctx = None ->
  allBHAPs ctx = (sortBy ascending ID (stored ctx), None).
Proof.
  intros Hf. unfold allBHAPs. rewrite GetAll_ok; [|exact Hf|reflexivity].
  cbn [q_limit q_order Order NewQuery limited]. rewrite ordered_ID. reflexivity.
Qed.

Lemma sorted_IDs l :
  StronglySorted (fun a b => ID a <= ID b) l ->
  StronglySorted Z.le (map ID l).
Proof.
  induction 1 as [|b l Hs IH Hall]; simpl; constructor; [exact IH|].
  apply Forall_map. exact Hall.
Qed.

Lemma sorted_permutation_unique (l1 : list Z) :
  forall l2,
    StronglySorted Z.le l1 -> StronglySorted Z.le l2 ->
    Permutation l1 l2 -> l1 = l2.
Proof.
  induction l1 as [|a l1 IH]; intros l2 H1 H2 Hp.
  - apply Permutation_nil in Hp. now subst.
  - destruct l2 as [|b l2].
    { apply Permutation_sym, Permutation_nil in Hp. discriminate Hp. }
    inversion H1 as [|? ? H1' Ha]; subst.
    inversion H2 as [|? ? H2' Hb]; subst.
    assert (Hab : a = b).
    { rewrite Forall_forall in Ha, Hb.
      assert (Hina : In a (b :: l2))
        by (eapply Permutation_in; [exact Hp | now left]).
      assert (Hinb : In b (a :: l1))
        by (eapply Permutation_in; [apply Permutation_sym, Hp | now left]).
      destruct Hina as [->|Hina]; [reflexivity|].
      destruct Hinb as [->|Hinb]; [reflexivity|].
      specialize (Ha _ Hinb). specialize (Hb _ Hina). lia. }
    subst b. f_equal. apply IH; try assumption.
    eapply Permutation_cons_inv. exact Hp.
Qed.

(** X6.  The IDs [allBHAPs] lists, in order, depend only on which BHAPs
    are stored, not on the order the datastore holds them in. *)
Theorem allBHAPs_order_independent ctx1 ctx2 :
  failure ctx1 = None -> failure ctx2 = None ->
  Permutation (stored ctx1) (stored ctx2) ->
  map ID (fst (allBHAPs ctx1)) = map ID (fst (allBHAPs ctx2)).
Proof.
  intros Hf1 Hf2 Hp. rewrite !allBHAPs_sortBy by assumption. simpl.
  apply sorted_permutation_unique.
  - apply sorted_IDs, sorted_ascending_le, sortBy_sorted.
  - apply sorted_IDs, sorted_ascending_le, sortBy_sorted.
  - apply Permutation_map.
    eapply perm_trans; [apply Permutation_sym, sortBy_perm|].
    eapply perm_trans; [exact Hp | apply sortBy_perm].
Qed.

Lemma allBHAPs_order_independent_witness :
  map ID (fst (allBHAPs (mkDatastore [proposal 3 draftStatus;
                                      proposal 7 discussionStatus] None)))
  = map ID (fst (allBHAPs (mkDatastore [proposal 7 discussionStatus;
                                        proposal 3 draftStatus] None))).
Proof.
  apply (allBHAPs_order_independent
           (mkDatastore [proposal 3 draftStatus; proposal 7 discussionStatus]
                        None)
           (mkDatastore [proposal 7 discussionStatus; proposal 3 draftStatus]
                        None) eq_refl eq_refl).
  apply perm_swap.
Defined.

(** X7.  Every BHAP that [allBHAPs] lists is found by [bhapByID] under
    its ID: the lookup says it exists and returns a stored BHAP with that
    ID. *)
Theorem allBHAPs_all_found ctx :
  failure ctx = None ->
  Forall (fun b => exists b',
            BhapStore.bhapByID ctx (ID b) = (b', true, None) /\
            In b' (stored ctx) /\ ID b' = ID b)
         (fst (allBHAPs ctx)).
Proof.
  intros Hf. rewrite allBHAPs_sortBy by exact Hf. simpl.
  apply Forall_forall. intros b Hb. apply bhapByID_hit; [exact Hf|].
  eapply Permutation_in; [apply Permutation_sym, sortBy_perm | exact Hb].
Qed.

Lemma allBHAPs_all_found_witness :
  Forall (fun b => exists b',
            BhapStore.bhapByID
              (mkDatastore [proposal 7 discussionStatus; proposal 3 draftStatus]
                           None) (ID b) = (b', true, None) /\
            In b' [proposal 7 discussionStatus; proposal 3 draftStatus] /\
            ID b' = ID b)
         [proposal 3 draftStatus; proposal 7 discussionStatus].
Proof.
  exact (allBHAPs_all_found
           (mkDatastore [proposal 7 discussionStatus; proposal 3 draftStatus]
                        None) eq_refl).
Defined.

(** ** bhap_page.go: every way through the handler *)

Lemma serveBHAPPage_exit s idStr : exit s idStr (serveBHAPPage s idStr).
Proof.
  unfold serveBHAPPage.
  destruct (Atoi s idStr) as [id [e|]] eqn:H1.
  { apply exit_bad_id. rewrite H1. discriminate. }
  destruct (bhapByID s id) as [[loadedBHAP bhapKey] [e|]] eqn:H2.
  { destruct bhapKey; apply (exit_load_failed s idStr id H1);
      rewrite H2; discriminate. }
  destruct bhapKey as [bhapKey|].
  2: { exact (exit_no_bhap s idStr id loadedBHAP H1 H2). }
  destruct (Get s (Author loadedBHAP)) as [author [e|]] eqn:H3.
  { apply exit_lookup_failed. simpl. auto. }
  destruct (userFromSession s) as [[u userKey] [e|]] eqn:H4.
  { apply exit_lookup_failed. simpl. auto. }
  destruct (allVotesForBHAP s (Some bhapKey)) as [allVotes [e|]] eqn:H5.
  { apply exit_lookup_failed. simpl. auto. }
  destruct (Count s) as [userCount [e|]] eqn:H6.
  { apply exit_lookup_failed. simpl. auto. }
  destruct (voteForBHAP s (Some bhapKey) userKey)
    as [[usersVote usersVoteKey] [e|]] eqn:H7.
  { apply exit_lookup_failed. simpl. auto 6. }
  apply exit_filled. exists id, bhapKey, author. repeat split; assumption.
Qed.

(** The three ends of the filling of the page. *)
Lemma fillPage_cases loadedBHAP html u userKey allVotes userCount usersVote
    usersVoteKey :
  let r := fillPage loadedBHAP html u userKey allVotes userCount usersVote
                    usersVoteKey in
  (selectVote usersVote usersVoteKey = None /\
   r = HttpError "Unknown vote type" StatusInternalServerError) \/
  (selectVote usersVote usersVoteKey <> None /\
   GoInt.sub userCount 1 = 0 /\ r = Panic divideByZero) \/
  (selectVote usersVote usersVoteKey <> None /\
   GoInt.sub userCount 1 <> 0 /\ exists filler, r = Rendered filler).
Proof.
  intros r. subst r.
  destruct (selectVote usersVote usersVoteKey) as [sv|] eqn:E.
  - assert (Hv : selectVote usersVote usersVoteKey <> None)
      by (rewrite E; discriminate).
    rewrite <- E.
    destruct (Z.eq_dec (GoInt.sub userCount 1) 0) as [Hd|Hd].
    + right; left. repeat split; [exact Hv | exact Hd |].
      now apply fillPage_panics.
    + right; right. repeat split; [exact Hv | exact Hd |].
      destruct (fillPage_renders loadedBHAP html u userKey allVotes userCount
                  usersVote usersVoteKey Hv Hd) as (filler & Hf & _).
      now exists filler.
  - left. split; [reflexivity|]. now apply fillPage_unknown_vote.
Qed.

Lemma rendered_cases s idStr filler :
  serveBHAPPage s idStr = Rendered filler ->
  exists loadedBHAP u userKey allVotes userCount usersVote usersVoteKey,
    lookups s idStr loadedBHAP u userKey allVotes userCount usersVote
            usersVoteKey /\
    fillPage loadedBHAP (Run s (Content loadedBHAP)) u userKey allVotes
             userCount usersVote usersVoteKey = Rendered filler.
Proof.
  intros Hr. pose proof (serveBHAPPage_exit s idStr) as Hx.
  rewrite Hr in Hx. inversion Hx as [| | | |b u uk votes n uv uvk Hl Heq].
  exists b, u, uk, votes, n, uv, uvk. split; [exact Hl | congruence].
Qed.

(** X8.  A page is rendered only on a run where every lookup succeeded,
    the BHAP exists, the viewer's own vote is absent or valid and the
    number of users less the author is not zero. *)
Theorem rendered_only_if s idStr filler :
  serveBHAPPage s idStr = Rendered filler ->
  exists loadedBHAP u userKey allVotes userCount usersVote usersVoteKey,
    lookups s idStr loadedBHAP u userKey allVotes userCount usersVote
            usersVoteKey /\
    selectVote usersVote usersVoteKey <> None /\
    GoInt.sub userCount 1 <> 0 /\
    fillPage loadedBHAP (Run s (Content loadedBHAP)) u userKey allVotes
             userCount usersVote usersVoteKey = Rendered filler.
Proof.
  intros Hr. pose proof (serveBHAPPage_exit s idStr) as Hx.
  rewrite Hr in Hx. inversion Hx as [| | | |b u uk votes n uv uvk Hl Heq].
  exists b, u, uk, votes, n, uv, uvk. split; [exact Hl|].
  destruct (fillPage_cases b (Run s (Content b)) u uk votes n uv uvk)
    as [(_ & H)|[(_ & _ & H)|(Hv & Hd & _)]].
  - congruence.
  - congruence.
  - split; [exact Hv | split; [exact Hd | congruence]].
Qed.

Lemma rendered_only_if_witness :
  exists loadedBHAP u userKey allVotes userCount usersVote usersVoteKey,
    lookups (servicesWith (proposal 1 draftStatus) (Some (userKeyOf 1)) [] 3
                          (mkVote None None "") None)
            "1" loadedBHAP u userKey allVotes userCount usersVote
            usersVoteKey /\
    selectVote usersVote usersVoteKey <> None /\
    GoInt.sub userCount 1 <> 0.
Proof.
  destruct (rendered_only_if
              (servicesWith (proposal 1 draftStatus) (Some (userKeyOf 1)) [] 3
                            (mkVote None None "") None)
              "1" _ eq_refl)
    as (b & u & uk & votes & n & uv & uvk & Hl & Hv & Hd & _).
  exists b, u, uk, votes, n, uv, uvk. repeat split; assumption.
Defined.

(** X9.  The handler panics only with the division by zero, and only
    when the user count, less one in Go's arithmetic, is zero: for a
    count that is an [int], only when it is 1. *)
Theorem panic_only_if s idStr message :
  serveBHAPPage s idStr = Panic message ->
  message = divideByZero /\
  exists userCount,
    Count s = (userCount, None) /\
    GoInt.sub userCount 1 = 0 /\
    (GoInt.in_int userCount -> userCount = 1).
Proof.
  intros Hp. pose proof (serveBHAPPage_exit s idStr) as Hx.
  rewrite Hp in Hx. inversion Hx as [| | | |b u uk votes n uv uvk Hl Heq].
  destruct (fillPage_cases b (Run s (Content b)) u uk votes n uv uvk)
    as [(_ & H)|[(_ & Hd & H)|(_ & _ & filler & H)]];
    try congruence.
  assert (Hm : message = divideByZero) by congruence.
  split; [exact Hm|].
  exists n. destruct Hl as (id & k & a & _ & _ & _ & _ & _ & Hc & _).
  split; [exact Hc | split; [exact Hd|]].
  intros Hin. unfold GoInt.sub, GoInt.wrap in Hd.
  unfold GoInt.in_int in Hin. rewrite min_int_value, max_int_value in Hin.
  destruct (Z.eq_dec n (-9223372036854775808)) as [->|Hne].
  - vm_compute in Hd. discriminate Hd.
  - rewrite Z.mod_small in Hd by lia. lia.
Qed.

Lemma panic_only_if_witness :
  exists userCount,
    Count (servicesWith (proposal 1 discussionStatus) None [] 1
                        (mkVote None None "") None) = (userCount, None) /\
    GoInt.sub userCount 1 = 0.
Proof.
  destruct (panic_only_if
              (servicesWith (proposal 1 discussionStatus) None [] 1
                            (mkVote None None "") None)
              "1" divideByZero eq_refl) as (_ & n & Hc & Hd & _).
  exists n. split; assumption.
Defined.

Lemma serve_error_cases s idStr body code :
  serveBHAPPage s idStr = HttpError body code ->
  (code = 400 /\ body = "ID must be an integer" /\ snd (Atoi s idStr) <> None) \/
  (code = 404 /\
   exists id b, Atoi s idStr = (id, None) /\ bhapByID s id = (b, None, None) /\
                body = ("No BHAP with ID " ++ formatInt id)%string) \/
  (code = 500 /\ In body internalErrors).
Proof.
  intros Hr. pose proof (serveBHAPPage_exit s idStr) as Hx. rewrite Hr in Hx.
  remember (HttpError body code) as r eqn:Er.
  destruct Hx as [Hbad|id Ha Hb|id b Ha Hb|body' Hin|b u uk votes n uv uvk Hl].
  - injection Er as <- <-. left. auto.
  - injection Er as <- <-. right; right.
    split; [reflexivity | simpl; auto].
  - injection Er as <- <-. right; left. split; [reflexivity|]. now exists id, b.
  - injection Er as <- <-. right; right.
    split; [reflexivity|]. simpl in Hin. simpl. intuition.
  - right; right.
    destruct (fillPage_cases b (Run s (Content b)) u uk votes n uv uvk)
      as [(_ & H)|[(_ & _ & H)|(_ & _ & filler & H)]]; try congruence.
    rewrite H in Er. injection Er as <- <-.
    split; [reflexivity | simpl; auto 10].
Qed.

(** X10.  The handler answers with status 400 exactly when the request's
    id is not an integer, and the body is then "ID must be an integer",
    whatever the datastore and the session hold. *)
Theorem bad_request_iff s idStr :
  ((exists body, serveBHAPPage s idStr = HttpError body 400) <->
   snd (Atoi s idStr) <> None) /\
  (forall body, serveBHAPPage s idStr = HttpError body 400 ->
                body = "ID must be an integer").
Proof.
  split; [split|].
  - intros (body & Hr).
    destruct (serve_error_cases s idStr body 400 Hr)
      as [(_ & _ & H)|[(H & _)|(H & _)]]; [exact H | discriminate H ..].
  - intros Hbad. exists "ID must be an integer". unfold serveBHAPPage.
    destruct (Atoi s idStr) as [id [e|]]; [reflexivity|].
    exfalso. now apply Hbad.
  - intros body Hr.
    destruct (serve_error_cases s idStr body 400 Hr)
      as [(_ & H & _)|[(H & _)|(H & _)]]; [exact H | discriminate H ..].
Qed.

Lemma bad_request_iff_witness :
  exists body,
    serveBHAPPage
      (mkServices (fun _ => (0, Some "strconv.Atoi: invalid syntax"))
                  (fun _ => (proposal 1 draftStatus, Some (bhapKeyOf 1), None))
                  (fun md => md) (fun _ => (viewer, None))
                  (viewer, None, None) (fun _ => ([], None)) (3, None)
                  (fun _ _ => (mkVote None None "", None, None)))
      "one" = HttpError body 400.
Proof.
  apply (proj2 (proj1 (bad_request_iff
           (mkServices (fun _ => (0, Some "strconv.Atoi: invalid syntax"))
                       (fun _ => (proposal 1 draftStatus, Some (bhapKeyOf 1), None))
                       (fun md => md) (fun _ => (viewer, None))
                       (viewer, None, None) (fun _ => ([], None)) (3, None)
                       (fun _ _ => (mkVote None None "", None, None)))
           "one"))).
  simpl. discriminate.
Defined.

(** X11.  The handler answers with status 404 exactly when the id is an
    integer and the lookup of the BHAP succeeds with a nil key, and the
    body then names that id in decimal. *)
Theorem not_found_iff s idStr :
  ((exists body, serveBHAPPage s idStr = HttpError body 404) <->
   (exists id b, Atoi s idStr = (id, None) /\
                 bhapByID s id = (b, None, None))) /\
  (forall id b,
     Atoi s idStr = (id, None) -> bhapByID s id = (b, None, None) ->
     serveBHAPPage s idStr
     = HttpError ("No BHAP with ID " ++ formatInt id)%string 404).
Proof.
  assert (Hback : forall id b,
     Atoi s idStr = (id, None) -> bhapByID s id = (b, None, None) ->
     serveBHAPPage s idStr
     = HttpError ("No BHAP with ID " ++ formatInt id)%string 404).
  { intros id b Ha Hb. unfold serveBHAPPage. rewrite Ha, Hb. reflexivity. }
  split; [split|exact Hback].
  - intros (body & Hr).
    destruct (serve_error_cases s idStr body 404 Hr)
      as [(H & _)|[(_ & id & b & Ha & Hb & _)|(H & _)]];
      [discriminate H | now exists id, b | discriminate H].
  - intros (id & b & Ha & Hb). eexists. exact (Hback id b Ha Hb).
Qed.

Lemma not_found_iff_witness :
  serveBHAPPage
    (mkServices (fun _ => (42, None))
                (fun _ => (zeroBhap, None, None))
                (fun md => md) (fun _ => (viewer, None))
                (viewer, None, None) (fun _ => ([], None)) (3, None)
                (fun _ _ => (mkVote None None "", None, None)))
    "42" = HttpError "No BHAP with ID 42" 404.
Proof.
  exact (proj2 (not_found_iff
           (mkServices (fun _ => (42, None))
                       (fun _ => (zeroBhap, None, None))
                       (fun md => md) (fun _ => (viewer, None))
                       (viewer, None, None) (fun _ => ([], None)) (3, None)
                       (fun _ _ => (mkVote None None "", None, None)))
           "42") 42 zeroBhap eq_refl eq_refl).
Defined.

(** X12.  Whenever the handler answers with an error, the status is 400,
    404 or 500, and with 500 the body is one of the seven messages of the
    handler. *)
Theorem error_answers_closed s idStr body code :
  serveBHAPPage s idStr = HttpError body code ->
  (code = 400 \/ code = 404 \/ code = 500) /\
  (code = 500 -> In body internalErrors).
Proof.
  intros Hr.
  destruct (serve_error_cases s idStr body code Hr)
    as [(H & _)|[(H & _)|(H & Hin)]]; subst code;
    (split; [auto | try discriminate; auto]).
Qed.

Lemma error_answers_closed_witness :
  In "Could not get votes" internalErrors.
Proof.
  refine (proj2 (error_answers_closed
            (mkServices (fun _ => (1, None))
                        (fun _ => (proposal 1 draftStatus, Some (bhapKeyOf 1), None))
                        (fun md => md) (fun _ => (viewer, None))
                        (viewer, None, None)
                        (fun _ => ([], Some "datastore: timeout")) (3, None)
                        (fun _ _ => (mkVote None None "", None, None)))
            "1" "Could not get votes" 500 eq_refl) eq_refl).
Defined.

(** ** bhap_page.go: what a rendered page holds *)

Lemma fillPage_Rendered_filler loadedBHAP html u userKey allVotes userCount
    usersVote usersVoteKey filler :
  fillPage loadedBHAP html u userKey allVotes userCount usersVote usersVoteKey
  = Rendered filler ->
  LoggedIn filler = isSome userKey /\
  FullName filler
  = (if isSome userKey then (FirstName u ++ " " ++ LastName u)%string else "") /\
  FillerID filler = ID loadedBHAP /\
  Some (SelectedVote filler) = selectVote usersVote usersVoteKey /\
  OptionsMode filler = decideOptions userKey loadedBHAP usersVoteKey /\
  HTMLContent filler = html /\
  VoteCount filler = Z.of_nat (List.length allVotes) /\
  UserCount filler = GoInt.sub userCount 1.
Proof.
  unfold fillPage.
  destruct (selectVote usersVote usersVoteKey); [|discriminate].
  destruct (percent _ userCount); [|discriminate].
  destruct (percent _ userCount); [|discriminate].
  destruct (percent _ userCount); [|discriminate].
  intros H. injection H as <-. simpl. destruct userKey; repeat split.
Qed.

Lemma decideOptions_logged_in uk loadedBHAP usersVoteKey :
  decideOptions (Some uk) loadedBHAP usersVoteKey <> notLoggedIn.
Proof.
  unfold decideOptions.
  destruct (Status loadedBHAP =? draftStatus)%string;
    [destruct (keyEqual uk (Author loadedBHAP)); discriminate|].
  destruct (Status loadedBHAP =? discussionStatus)%string; [|discriminate].
  destruct (keyEqual uk (Author loadedBHAP)); [discriminate|].
  destruct usersVoteKey; discriminate.
Qed.

Lemma decideOptions_vote_modes userKey loadedBHAP usersVoteKey :
  (decideOptions userKey loadedBHAP usersVoteKey = discussionVoted ->
   usersVoteKey <> None /\ isAuthor userKey loadedBHAP = false /\
   Status loadedBHAP = discussionStatus) /\
  (decideOptions userKey loadedBHAP usersVoteKey = discussionNoVote ->
   usersVoteKey = None /\ isAuthor userKey loadedBHAP = false /\
   userKey <> None /\ Status loadedBHAP = discussionStatus).
Proof.
  unfold decideOptions, isAuthor.
  destruct userKey as [uk|]; [|split; discriminate].
  destruct (String.eqb_spec (Status loadedBHAP) draftStatus);
    [destruct (keyEqual uk (Author loadedBHAP)); split; discriminate|].
  destruct (String.eqb_spec (Status loadedBHAP) discussionStatus);
    [|split; discriminate].
  destruct (keyEqual uk (Author loadedBHAP)); [split; discriminate|].
  destruct usersVoteKey; split; try discriminate; intros _;
    repeat split; try assumption; discriminate.
Qed.

(** X13.  On every page the handler renders, the logged-in flag is set
    exactly when the mode is not [notLoggedIn], the full name is empty
    for a viewer who is not logged in, and the page's ID is the ID of the
    BHAP it shows. *)
Theorem rendered_login_fields s idStr filler :
  serveBHAPPage s idStr = Rendered filler ->
  (LoggedIn filler = true <-> OptionsMode filler <> notLoggedIn) /\
  (LoggedIn filler = false -> FullName filler = "") /\
  FillerID filler = ID (BHAP filler).
Proof.
  intros Hr.
  destruct (rendered_cases s idStr filler Hr)
    as (b & u & uk & votes & n & uv & uvk & _ & Hf).
  pose proof (fillPage_Rendered_fields _ _ _ _ _ _ _ _ _ Hf) as (_ & _ & Hb).
  apply fillPage_Rendered_filler in Hf.
  destruct Hf as (Hl & Hn & Hi & _ & Hm & _).
  rewrite Hl, Hn, Hi, Hm, Hb.
  destruct uk as [k|]; simpl.
  - split; [split; [intros _; apply decideOptions_logged_in | reflexivity]|].
    split; [discriminate | reflexivity].
  - split; [split; [discriminate | intros H; now contradiction H]|].
    split; reflexivity.
Qed.

Lemma rendered_login_fields_witness :
  FullName
    (mkFiller false "" 1 (proposal 1 discussionStatus) "" notLoggedIn false
              "Some *markdown*" 0 2 0 0 100) = "".
Proof.
  apply (proj1 (proj2 (rendered_login_fields
           (servicesWith (proposal 1 discussionStatus) None [] 3
                         (mkVote None None "") None)
           "1" _ eq_refl))).
  reflexivity.
Defined.

Lemma selectVote_values usersVote usersVoteKey sv :
  selectVote usersVote usersVoteKey = Some sv ->
  (usersVoteKey = None -> sv = "") /\
  (usersVoteKey <> None ->
   (sv = "ACCEPT" /\ Value usersVote = acceptedStatus) \/
   (sv = "REJECTED" /\ Value usersVote = rejectedStatus)).
Proof.
  unfold selectVote. destruct usersVoteKey as [k|].
  - destruct (String.eqb_spec (Value usersVote) acceptedStatus) as [Ha|Ha].
    + intros H. injection H as <-. split; [discriminate | auto].
    + destruct (String.eqb_spec (Value usersVote) rejectedStatus) as [Hr|Hr];
        [|discriminate].
      intros H. injection H as <-. split; [discriminate | auto].
  - intros H. injection H as <-. split; [reflexivity|]. intros H. now contradiction H.
Qed.

(** X14.  On every page the handler renders, the mode [discussionVoted]
    comes with a selected vote, "ACCEPT" or "REJECTED", and the mode
    [discussionNoVote] comes with none. *)
Theorem rendered_vote_fields s idStr filler :
  serveBHAPPage s idStr = Rendered filler ->
  (OptionsMode filler = discussionVoted ->
   SelectedVote filler = "ACCEPT" \/ SelectedVote filler = "REJECTED") /\
  (OptionsMode filler = discussionNoVote -> SelectedVote filler = "").
Proof.
  intros Hr.
  destruct (rendered_cases s idStr filler Hr)
    as (b & u & uk & votes & n & uv & uvk & _ & Hf).
  apply fillPage_Rendered_filler in Hf.
  destruct Hf as (_ & _ & _ & Hs & Hm & _).
  symmetry in Hs. apply selectVote_values in Hs. destruct Hs as [Hnone Hsome].
  rewrite Hm.
  destruct (decideOptions_vote_modes uk b uvk) as [Hvoted Hnovote].
  split.
  - intros H. apply Hvoted in H. destruct H as (Hk & _).
    destruct (Hsome Hk) as [(-> & _)|(-> & _)]; auto.
  - intros H. apply Hnovote in H. destruct H as (Hk & _). now apply Hnone.
Qed.

Lemma rendered_vote_fields_witness :
  SelectedVote
    (mkFiller true "Ada Lovelace" 1 (proposal 1 discussionStatus) "REJECTED"
              discussionVoted false "Some *markdown*" 1 2 0 0 0) = "ACCEPT" \/
  SelectedVote
    (mkFiller true "Ada Lovelace" 1 (proposal 1 discussionStatus) "REJECTED"
              discussionVoted false "Some *markdown*" 1 2 0 0 0) = "REJECTED".
Proof.
  apply (proj1 (rendered_vote_fields
           (servicesWith (proposal 1 discussionStatus) (Some (userKeyOf 2))
                         [ballot 2 rejectedStatus] 3
                         (ballot 2 rejectedStatus) (Some (userKeyOf 9)))
           "1" _ eq_refl)).
  reflexivity.
Defined.

(** ** bhap_page.go: the counts and the percentages *)

Lemma countVote_swap counts x y :
  countVote (countVote counts x) y = countVote (countVote counts y) x.
Proof.
  destruct counts as [a r]. unfold countVote.
  destruct (Value x =? acceptedStatus)%string,
           (Value x =? rejectedStatus)%string,
           (Value y =? acceptedStatus)%string,
           (Value y =? rejectedStatus)%string; reflexivity.
Qed.

Lemma fold_countVote_permutation l l' :
  Permutation l l' ->
  forall counts, fold_left countVote l counts = fold_left countVote l' counts.
Proof.
  induction 1 as [|x l l' Hp IH|x y l|l l' l'' H1 IH1 H2 IH2]; intros counts.
  - reflexivity.
  - simpl. apply IH.
  - simpl. now rewrite countVote_swap.
  - now rewrite IH1, IH2.
Qed.

(** X15.  The vote breakdown does not depend on the order of the votes. *)
Theorem voteBreakdown_permutation allVotes allVotes' userCount :
  Permutation allVotes allVotes' ->
  voteBreakdown allVotes userCount = voteBreakdown allVotes' userCount.
Proof.
  intros Hp. unfold voteBreakdown.
  now rewrite (fold_countVote_permutation allVotes allVotes' Hp).
Qed.

Lemma voteBreakdown_permutation_witness :
  voteBreakdown [ballot 2 acceptedStatus; ballot 3 rejectedStatus] 5
  = voteBreakdown [ballot 3 rejectedStatus; ballot 2 acceptedStatus] 5.
Proof.
  apply (voteBreakdown_permutation
           [ballot 2 acceptedStatus; ballot 3 rejectedStatus]
           [ballot 3 rejectedStatus; ballot 2 acceptedStatus] 5).
  apply perm_swap.
Defined.

(** X16.  For a list of votes a Go slice can hold, the accepted count is
    the number of votes whose value is [Accepted] and the rejected count
    the number of those whose value is [Rejected]; both are non-negative
    and together they are at most the number of votes. *)
Theorem breakdown_counts_votes allVotes userCount :
  Z.of_nat (List.length allVotes) <= GoInt.max_int ->
  let counts := voteBreakdown allVotes userCount in
  acceptedCount counts = votesWith acceptedStatus allVotes /\
  rejectedCount counts = votesWith rejectedStatus allVotes /\
  0 <= acceptedCount counts /\ 0 <= rejectedCount counts /\
  acceptedCount counts + rejectedCount counts
  <= Z.of_nat (List.length allVotes).
Proof.
  intros Hlen. unfold voteBreakdown. rewrite fold_countVote by lia.
  cbn [acceptedCount rejectedCount]. rewrite !Z.add_0_l.
  pose proof (votesWith_nonneg acceptedStatus allVotes).
  pose proof (votesWith_nonneg rejectedStatus allVotes).
  pose proof (votesWith_sum_le allVotes).
  repeat split; assumption.
Qed.

Lemma breakdown_counts_votes_witness :
  acceptedCount
    (voteBreakdown [ballot 2 acceptedStatus; ballot 3 "Maybe";
                    ballot 4 acceptedStatus] 5) = 2.
Proof.
  apply (breakdown_counts_votes
           [ballot 2 acceptedStatus; ballot 3 "Maybe"; ballot 4 acceptedStatus]
           5).
  rewrite max_int_value. simpl. lia.
Defined.

Lemma fillPage_Rendered_percent loadedBHAP html u userKey allVotes userCount
    usersVote usersVoteKey filler :
  fillPage loadedBHAP html u userKey allVotes userCount usersVote usersVoteKey
  = Rendered filler ->
  let counts := voteBreakdown allVotes userCount in
  percent (acceptedCount counts) userCount = Some (PercentAccepted filler) /\
  percent (rejectedCount counts) userCount = Some (PercentRejected filler) /\
  percent (undecidedCount counts) userCount = Some (PercentUndecided filler).
Proof.
  unfold fillPage.
  destruct (selectVote usersVote usersVoteKey); [|discriminate].
  destruct (percent (acceptedCount _) userCount); [|discriminate].
  destruct (percent (rejectedCount _) userCount); [|discriminate].
  destruct (percent (undecidedCount _) userCount); [|discriminate].
  intros H. injection H as <-. simpl. repeat split.
Qed.

Lemma percent_all_or_nothing count userCount :
  1 < userCount <= GoInt.max_int -> 0 <= count <= userCount - 1 ->
  percent count userCount = Some (if count =? userCount - 1 then 100 else 0).
Proof.
  intros Hn Hc. destruct (Z.eqb_spec count (userCount - 1)) as [->|Hne].
  - rewrite max_int_value in Hn.
    assert (Hsub : GoInt.sub userCount 1 = userCount - 1).
    { apply wrap_in_int. unfold GoInt.in_int.
      rewrite min_int_value, max_int_value. lia. }
    rewrite percent_nonzero_divisor by lia.
    rewrite Hsub, Z.quot_same by lia. reflexivity.
  - apply percent_below_whole; [exact Hn | lia].
Qed.

(** X17.  With more than one registered user and no more [Accepted] and
    [Rejected] votes than eligible voters, each percentage on a rendered
    page is 100 when its bucket holds every eligible voter and 0
    otherwise. *)
Theorem percentages_all_or_nothing s idStr loadedBHAP u userKey allVotes
    userCount usersVote usersVoteKey filler :
  lookups s idStr loadedBHAP u userKey allVotes userCount usersVote
          usersVoteKey ->
  1 < userCount <= GoInt.max_int ->
  Z.of_nat (List.length allVotes) <= GoInt.max_int ->
  votesWith acceptedStatus allVotes + votesWith rejectedStatus allVotes
  <= userCount - 1 ->
  serveBHAPPage s idStr = Rendered filler ->
  PercentAccepted filler
  = (if votesWith acceptedStatus allVotes =? userCount - 1 then 100 else 0) /\
  PercentRejected filler
  = (if votesWith rejectedStatus allVotes =? userCount - 1 then 100 else 0) /\
  PercentUndecided filler
  = (if votesWith acceptedStatus allVotes + votesWith rejectedStatus allVotes
        =? 0 then 100 else 0).
Proof.
  intros Hl Hn Hlen Hfit Hr.
  rewrite (serveBHAPPage_lookups _ _ _ _ _ _ _ _ _ Hl) in Hr.
  apply fillPage_Rendered_percent in Hr. cbv zeta in Hr.
  rewrite voteBreakdown_exact in Hr by lia.
  cbn [acceptedCount rejectedCount undecidedCount] in Hr.
  pose proof (votesWith_nonneg acceptedStatus allVotes) as Ha.
  pose proof (votesWith_nonneg rejectedStatus allVotes) as Hrj.
  rewrite !percent_all_or_nothing in Hr by lia.
  destruct Hr as (H1 & H2 & H3).
  injection H1 as <-. injection H2 as <-. injection H3 as <-.
  repeat split.
  destruct (Z.eqb_spec
              (userCount - (votesWith acceptedStatus allVotes
                            + votesWith rejectedStatus allVotes) - 1)
              (userCount - 1)),
           (Z.eqb_spec (votesWith acceptedStatus allVotes
                        + votesWith rejectedStatus allVotes) 0);
    try reflexivity; lia.
Qed.

Lemma percentages_all_or_nothing_witness :
  PercentAccepted
    (mkFiller true "Ada Lovelace" 1 (proposal 1 discussionStatus) ""
              discussionNoVote false "Some *markdown*" 2 2 100 0 0)
  = (if votesWith acceptedStatus
          [ballot 2 acceptedStatus; ballot 3 acceptedStatus] =? 3 - 1
     then 100 else 0).
Proof.
  apply (percentages_all_or_nothing
           (servicesWith (proposal 1 discussionStatus) (Some (userKeyOf 4))
                         [ballot 2 acceptedStatus; ballot 3 acceptedStatus] 3
                         (mkVote None None "") None)
           "1" (proposal 1 discussionStatus) viewer (Some (userKeyOf 4))
           [ballot 2 acceptedStatus; ballot 3 acceptedStatus] 3
           (mkVote None None "") None).
  - exists 1, (bhapKeyOf 1), (mkUser "Grace" "Hopper"). repeat split.
  - rewrite max_int_value. lia.
  - rewrite max_int_value. simpl. lia.
  - vm_compute. discriminate.
  - reflexivity.
Defined.

(** ** bhap_page.go: the author's options *)

Lemma keyEqual_refl : forall k : Key, keyEqual k (Some k) = true.
Proof.
  fix IH 1. intros [kd sid iid parent app ns]. simpl.
  rewrite !String.eqb_refl, Z.eqb_refl. simpl.
  destruct parent as [p|]; [apply IH | reflexivity].
Qed.

(** X18.  A logged-in viewer whose key is the BHAP's author key is taken
    for the author: the mode is [draftAuthor] for a draft and
    [discussionAuthor] for a BHAP under discussion, whether or not a vote
    of theirs exists, and never one of the modes of another viewer. *)
Theorem author_is_recognised k loadedBHAP usersVoteKey :
  Author loadedBHAP = Some k ->
  let mode := decideOptions (Some k) loadedBHAP usersVoteKey in
  (Status loadedBHAP = draftStatus -> mode = draftAuthor) /\
  (Status loadedBHAP = discussionStatus -> mode = discussionAuthor) /\
  mode <> draftNotAuthor /\ mode <> discussionNoVote /\
  mode <> discussionVoted /\ mode <> notLoggedIn.
Proof.
  intros Ha mode. subst mode. unfold decideOptions.
  rewrite Ha, keyEqual_refl.
  destruct (String.eqb_spec (Status loadedBHAP) draftStatus) as [Hd|Hd].
  - repeat split; try discriminate. rewrite Hd. discriminate.
  - destruct (String.eqb_spec (Status loadedBHAP) discussionStatus) as [Hs|Hs];
      repeat split; try discriminate; try contradiction.
Qed.

Lemma author_is_recognised_witness :
  decideOptions (Some (userKeyOf 1)) (proposal 1 discussionStatus)
                (Some (userKeyOf 9)) = discussionAuthor.
Proof.
  exact (proj1 (proj2 (author_is_recognised (userKeyOf 1)
           (proposal 1 discussionStatus) (Some (userKeyOf 9)) eq_refl))
           eq_refl).
Defined.
